(** * DatadogServiceEntityProvider

    A shallow embedding of [DatadogServiceEntityProvider] (the Backstage
    entity provider that reads the Datadog Software Catalog) and the
    properties of its ingestion pipeline.

    The provider is written against [any]-typed JSON, so the embedding keeps
    JavaScript's dynamic behaviour: values are JSON values, property reads on
    [null]/[undefined] throw, [||] and [!] test truthiness, method calls on
    values of the wrong shape throw a [TypeError].  Exceptions are explicit
    results, logging and the calls to the outside world (HTTP requests, the
    catalog mutation) are recorded as a trace of events. *)

From Stdlib Require Import String Ascii ZArith NArith List Lia DecimalString.
From stdpp Require Import base list strings gmap.
From Stdlib Require DecimalN.
Import ListNotations.

(** ** JavaScript strings

    Strings are sequences of 8-bit characters: the model is exact for strings
    whose UTF-16 code units all lie below 256 (Latin-1), which covers every
    literal of the source. *)
Module Str.

Definition code (c : ascii) : N := N_of_ascii c.

Definition in_range (lo hi : N) (c : ascii) : bool :=
  ((lo <=? code c) && (code c <=? hi))%N.

(** [String.prototype.toLowerCase] on one character: A-Z, and the upper-case
    letters of the Latin-1 supplement (U+00C0-U+00DE but the multiplication
    sign U+00D7), move 32 places up. *)
Definition lower_char (c : ascii) : ascii :=
  if in_range 65 90 c || (in_range 192 222 c && negb (code c =? 215)%N)
  then ascii_of_N (code c + 32)
  else c.

Fixpoint map_chars (f : ascii -> ascii) (s : string) : string :=
  match s with
  | EmptyString => EmptyString
  | String c s' => String (f c) (map_chars f s')
  end.

Definition toLowerCase (s : string) : string := map_chars lower_char s.

(** The character class [a-z0-9-]. *)
Definition name_char (c : ascii) : bool :=
  in_range 97 122 c || in_range 48 57 c || (code c =? 45)%N.

(** [s.replace(/[^a-z0-9-]/g, "-")]. *)
Definition replace_non_name_chars (s : string) : string :=
  map_chars (fun c => if name_char c then c else "-"%char) s.

(** [s.split(sep)] for a one-character separator. *)
Fixpoint split (sep : ascii) (s : string) : list string :=
  match s with
  | EmptyString => [EmptyString]
  | String c s' =>
      if Ascii.eqb c sep then EmptyString :: split sep s'
      else match split sep s' with
           | [] => [String c EmptyString]
           | p :: ps => String c p :: ps
           end
  end.

(** [s.startsWith(p)]. *)
Definition startsWith (s p : string) : bool := String.prefix p s.

(** [s.includes(sub)]. *)
Fixpoint includes (s sub : string) : bool :=
  String.prefix sub s ||
  match s with
  | EmptyString => false
  | String _ s' => includes s' sub
  end.

(** The rest of [s] after the prefix [p], when [s] starts with [p]. *)
Fixpoint strip_prefix (p s : string) : option string :=
  match p, s with
  | EmptyString, _ => Some s
  | String a p', String b s' => if Ascii.eqb a b then strip_prefix p' s' else None
  | String _ _, EmptyString => None
  end.

Definition is_digit (c : ascii) : bool := in_range 48 57 c.

(** The longest run of decimal digits at the start of [s] (a greedy [\d+]). *)
Fixpoint take_digits (s : string) : string :=
  match s with
  | String c s' => if is_digit c then String c (take_digits s') else EmptyString
  | EmptyString => EmptyString
  end.

(** [parseInt(ds, 10)] on a string of decimal digits.  JavaScript numbers
    are doubles: the value is exact up to 2^53. *)
Definition parseInt10 (ds : string) : N :=
  fold_left (fun acc c => (10 * acc + (code c - 48))%N) (list_ascii_of_string ds) 0%N.

(** Decimal rendering of a number inside a template literal. *)
Definition of_N (n : N) : string := NilZero.string_of_uint (N.to_uint n).
Definition of_Z (z : Z) : string := NilZero.string_of_int (Z.to_int z).

Fixpoint join (sep : string) (l : list string) : string :=
  match l with
  | [] => EmptyString
  | [x] => x
  | x :: rest => x +:+ sep +:+ join sep rest
  end.

End Str.

(** ** Name derivation

    [attributes.name.toLowerCase().replace(/[^a-z0-9-]/g, "-")] *)
Definition normalizeName (rawName : string) : string :=
  Str.replace_non_name_chars (Str.toLowerCase rawName).

(** Every character of the string is in [a-z0-9-]. *)
Fixpoint all_name_chars (s : string) : bool :=
  match s with
  | EmptyString => true
  | String c s' => Str.name_char c && all_name_chars s'
  end.

(** One character of the derived name, from one character of the raw name. *)
Definition normalize_char (c : ascii) : ascii :=
  if Str.name_char (Str.lower_char c) then Str.lower_char c else "-"%char.



(** ** JSON values

    What [response.json()] can return, plus [undefined], the value of a
    missing property.  Numbers are integers: the provider only tests numbers
    for truthiness and prints them.  An object is the list of its own
    properties, each key once. *)
#[warnings="-register-all"] Inductive JSValue : Type :=
| JUndefined
| JNull
| JBool (b : bool)
| JNum (n : Z)
| JStr (s : string)
| JArr (elems : list JSValue)
| JObj (props : list (string * JSValue)).

(** ** Exceptions *)
Inductive Exn : Type :=
| Error (message : string)
| TypeError (message : string)
| SyntaxError (message : string).

Definition message (e : Exn) : string :=
  match e with Error m | TypeError m | SyntaxError m => m end.

Inductive Result (A : Type) : Type :=
| Ok (a : A)
| Throw (e : Exn).
Arguments Ok {A} a.
Arguments Throw {A} e.

#[global] Instance Result_ret : MRet Result := fun A a => Ok a.
#[global] Instance Result_bind : MBind Result := fun A B f m =>
  match m with
  | Ok a => f a
  | Throw e => Throw e
  end.

(** ** Operators of the language on JSON values *)

(** [!!v] *)
Definition truthy (v : JSValue) : bool :=
  match v with
  | JUndefined | JNull => false
  | JBool b => b
  | JNum n => negb (n =? 0)%Z
  | JStr s => negb (String.eqb s "")
  | JArr _ | JObj _ => true
  end.

Fixpoint lookupProp (k : string) (props : list (string * JSValue)) : JSValue :=
  match props with
  | [] => JUndefined
  | (k', v) :: rest => if String.eqb k' k then v else lookupProp k rest
  end.

(** [v.k] for the data properties the provider reads (none of them is
    inherited from a prototype, but [length] on arrays and strings). *)
Definition getProp (v : JSValue) (k : string) : Result JSValue :=
  match v with
  | JUndefined => Throw (TypeError ("Cannot read properties of undefined (reading '" +:+ k +:+ "')"))
  | JNull => Throw (TypeError ("Cannot read properties of null (reading '" +:+ k +:+ "')"))
  | JObj props => Ok (lookupProp k props)
  | JArr elems => Ok (if String.eqb k "length" then JNum (Z.of_nat (length elems)) else JUndefined)
  | JStr s => Ok (if String.eqb k "length" then JNum (Z.of_nat (String.length s)) else JUndefined)
  | JBool _ | JNum _ => Ok JUndefined
  end.

(** [v?.k] *)
Definition getPropOpt (v : JSValue) (k : string) : Result JSValue :=
  match v with
  | JUndefined | JNull => Ok JUndefined
  | _ => getProp v k
  end.

(** [v === "s"] *)
Definition strictEqString (v : JSValue) (s : string) : bool :=
  match v with
  | JStr s' => String.eqb s' s
  | _ => false
  end.

(** [a || b], for a [b] whose evaluation cannot throw. *)
Definition orElse (a b : JSValue) : JSValue := if truthy a then a else b.

(** [`${v}`]: the string conversion of a template literal. *)
Fixpoint toString (v : JSValue) : string :=
  match v with
  | JUndefined => "undefined"
  | JNull => "null"
  | JBool true => "true"
  | JBool false => "false"
  | JNum n => Str.of_Z n
  | JStr s => s
  | JArr elems =>
      Str.join "," (List.map (fun x => match x with
                                       | JUndefined | JNull => EmptyString
                                       | _ => toString x
                                       end) elems)
  | JObj _ => "[object Object]"
  end.

(** The values a [for ... of] loop or a spread visits: the elements of an
    array, the characters of a string; anything else is not iterable. *)
Definition iterate (v : JSValue) : Result (list JSValue) :=
  match v with
  | JArr elems => Ok elems
  | JStr s => Ok (List.map (fun c => JStr (String c EmptyString)) (list_ascii_of_string s))
  | _ => Throw (TypeError (toString v +:+ " is not iterable"))
  end.

(** [Array.prototype.find] with a callback that may throw; [undefined] when
    no element satisfies it. *)
Fixpoint findM (p : JSValue -> Result bool) (elems : list JSValue) : Result JSValue :=
  match elems with
  | [] => Ok JUndefined
  | x :: rest => b ← p x; if b : bool then Ok x else findM p rest
  end.

(** [v.find(p)]: only arrays have the method. *)
Definition callFind (v : JSValue) (p : JSValue -> Result bool) : Result JSValue :=
  match v with
  | JArr elems => findM p elems
  | _ => Throw (TypeError "find is not a function")
  end.

(** [v?.find(p)] *)
Definition callFindOpt (v : JSValue) (p : JSValue -> Result bool) : Result JSValue :=
  match v with
  | JUndefined | JNull => Ok JUndefined
  | _ => callFind v p
  end.

(** [v.toLowerCase()]: only strings have the method. *)
Definition callToLowerCase (v : JSValue) : Result string :=
  match v with
  | JStr s => Ok (Str.toLowerCase s)
  | _ => Throw (TypeError "toLowerCase is not a function")
  end.

(** [arr[0]] on an array. *)
Definition firstElem (v : JSValue) : JSValue :=
  match v with
  | JArr (x :: _) => x
  | _ => JUndefined
  end.

(** [parts.findIndex(p)]: the index of the first element satisfying [p],
    or -1. *)
Fixpoint findIndex {A : Type} (p : A -> bool) (l : list A) : Z :=
  match l with
  | [] => -1
  | x :: rest => if p x then 0 else
                   let i := findIndex p rest in
                   if (i =? -1)%Z then -1 else (i + 1)%Z
  end.

(** [parts[i]] for a number [i]: [undefined] out of range. *)
Definition at_index {A : Type} (l : list A) (i : Z) : option A :=
  if (i <? 0)%Z then None else l !! Z.to_nat i.

(** ** Relationship translation *)

Record EntityRef : Type := mkEntityRef
  { ref_kind : string; ref_namespace : string; ref_name : string }.

(** A relation as [extractRelationships] builds it: [{ type, target }]. *)
Record Relation : Type := mkRelation
  { rel_type : string; rel_target : string }.

Definition nonEmpty (s : string) : bool := negb (String.eqb s "").

(** [parseDdEntityRef(id)]; [None] is the [null] result. *)
Definition parseDdEntityRef (id : string) : option EntityRef :=
  let parts := Str.split ":" id in
  let relTypeIdx := findIndex (fun p => Str.startsWith p "RelationType") parts in
  if (relTypeIdx =? -1)%Z || (relTypeIdx =? 0)%Z
     || (relTypeIdx =? Z.of_nat (length parts) - 1)%Z
  then None
  else
    match at_index parts (relTypeIdx + 1), at_index parts (relTypeIdx + 2),
          at_index parts (relTypeIdx + 3) with
    | Some kind, Some namespace, Some name =>
        if nonEmpty kind && nonEmpty namespace && nonEmpty name
        then Some (mkEntityRef kind namespace name)
        else None
    | _, _, _ => None
    end.

(** [toEntityRef({ kind, namespace, name })]; [toLocaleLowerCase] is taken
    in a locale without special casing rules, where it is [toLowerCase]. *)
Definition toEntityRef (r : EntityRef) : string :=
  Str.toLowerCase (ref_kind r) +:+ ":" +:+ ref_namespace r +:+ "/" +:+ ref_name r.

Definition ddToBackstageRelationType : gmap string string :=
  list_to_map
    [ ("RelationTypeDependsOn", "dependsOn");
      ("RelationTypeDependencyOf", "dependencyOf");
      ("RelationTypeOwnedBy", "ownedBy");
      ("RelationTypeOwnerOf", "ownerOf");
      ("RelationTypePartsOf", "partOf");
      ("RelationTypeHasPart", "hasPart") ].

(** One turn of the loop of [extractRelationships]: the relation pushed for
    [rel], or [None] where the loop [continue]s. *)
Definition translateRelationship (rel : JSValue) : Result (option Relation) :=
  id ← getProp rel "id";
  match id with
  | JStr id =>
      let idParts := Str.split ":" id in
      match List.find (fun p => Str.startsWith p "RelationType") idParts with
      | None => Ok None
      | Some relTypePart =>
          match ddToBackstageRelationType !! relTypePart with
          | None => Ok None
          | Some backstageType =>
              match parseDdEntityRef id with
              | None => Ok None
              | Some target =>
                  Ok (Some (mkRelation backstageType (toEntityRef target)))
              end
          end
      end
  | JUndefined | JNull =>
      Throw (TypeError "Cannot read properties of undefined (reading 'split')")
  | _ => Throw (TypeError "rel.id.split is not a function")
  end.

Fixpoint translateAll (rels : list JSValue) (relations : list Relation)
  : Result (list Relation) :=
  match rels with
  | [] => Ok relations
  | rel :: rest =>
      r ← translateRelationship rel;
      translateAll rest (match r with
                         | Some x => relations ++ [x]
                         | None => relations
                         end)
  end.

(** [extractRelationships(service)] *)
Definition extractRelationships (service : JSValue) : Result (list Relation) :=
  relationships ← getProp service "relationships";
  if negb (truthy relationships) then Ok [] else
  relatedEntities ← getProp relationships "relatedEntities";
  if negb (truthy relatedEntities) then Ok [] else
  data ← getProp relatedEntities "data";
  rels ← iterate data;
  translateAll rels [].

(** ** Entities *)

Record EntityLink : Type := mkEntityLink
  { link_url : JSValue; link_title : string; link_icon : string }.

Record EntityMeta : Type := mkEntityMeta
  { meta_name : string;
    meta_title : JSValue;
    meta_description : JSValue;
    meta_annotations : gmap string JSValue;
    meta_tags : list JSValue;
    meta_links : list EntityLink }.

Record EntitySpec : Type := mkEntitySpec
  { spec_type : JSValue; spec_lifecycle : JSValue; spec_owner : JSValue }.

(** The catalog model's [Entity]: [relations] is an optional property of the
    type, [None] when the object has no such property. *)
Record Entity : Type := mkEntity
  { apiVersion : string;
    kind : string;
    metadata : EntityMeta;
    spec : EntitySpec;
    relations : option (list Relation) }.

Record DeferredEntity : Type := mkDeferredEntity
  { entity : Entity; locationKey : string }.

Record Mutation : Type := mkMutation
  { mutation_type : string; mutation_entities : list DeferredEntity }.

(** ** Effects

    What the provider does to the outside world, in order. *)
Inductive LogLevel : Type := Debug | Info | Warn | LogError.

Inductive Event : Type :=
| EvLog (level : LogLevel) (msg : string)
| EvConsoleLog (relationships : list Relation)
| EvFetch (url : string) (headers : list (string * string))
| EvApplyMutation (m : Mutation).

(** A computation: the events it performed and how it ended. *)
Record IO (A : Type) : Type := mkIO
  { trace : list Event; result : Result A }.
Arguments mkIO {A} trace result.
Arguments trace {A} _.
Arguments result {A} _.

#[global] Instance IO_ret : MRet IO := fun A a => mkIO [] (Ok a).
#[global] Instance IO_bind : MBind IO := fun A B f m =>
  match result m with
  | Ok a => mkIO (trace m ++ trace (f a)) (result (f a))
  | Throw e => mkIO (trace m) (Throw e)
  end.

Definition lift {A : Type} (r : Result A) : IO A := mkIO [] r.
Definition throw {A : Type} (e : Exn) : IO A := mkIO [] (Throw e).
Definition emit (ev : Event) : IO unit := mkIO [ev] (Ok tt).
Definition logger (level : LogLevel) (msg : string) : IO unit := emit (EvLog level msg).

(** [try { m } catch (error) { handler error }] *)
Definition tryCatch {A : Type} (m : IO A) (handler : Exn -> IO A) : IO A :=
  match result m with
  | Ok a => m
  | Throw e => mkIO (trace m ++ trace (handler e)) (result (handler e))
  end.

(** ** The provider *)

Record DatadogServiceEntityProviderConfig : Type := mkConfig
  { apiKey : string; applicationKey : string; site : string }.

(** The destination catalog: [applyMutation] resolves or rejects. *)
Record EntityProviderConnection : Type := mkConnection
  { applyMutation : Mutation -> Result unit }.

Record DatadogServiceEntityProvider : Type := mkProvider
  { config : DatadogServiceEntityProviderConfig;
    connection : option EntityProviderConnection }.

(** The constructor: no connection yet. *)
Definition newProvider (cfg : DatadogServiceEntityProviderConfig)
  : DatadogServiceEntityProvider :=
  mkProvider cfg None.

Definition baseUrl (this : DatadogServiceEntityProvider) : string :=
  "https://api." +:+ site (config this).

Definition headers (this : DatadogServiceEntityProvider) : list (string * string) :=
  [ ("DD-API-KEY", apiKey (config this));
    ("DD-APPLICATION-KEY", applicationKey (config this));
    ("Content-Type", "application/json") ].

Definition getProviderName : string := "DatadogServiceEntityProvider".

(** [connect(connection)] stores the connection; the run it then registers
    with the scheduler is started by the scheduler. *)
Definition connect (this : DatadogServiceEntityProvider)
    (conn : EntityProviderConnection) : DatadogServiceEntityProvider :=
  mkProvider (config this) (Some conn).

(** *** createServiceEntity *)

(** [attributes.owner || contacts?.find(squad)?.contact
     || contacts?.find(team)?.contact || "unknown"] *)
Definition resolveOwner (attributes : JSValue) : Result JSValue :=
  owner ← getProp attributes "owner";
  if truthy owner then Ok owner else
  contacts ← getProp attributes "contacts";
  squad ← callFindOpt contacts
            (fun contact => t ← getProp contact "type"; Ok (strictEqString t "squad"));
  squadContact ← getPropOpt squad "contact";
  if truthy squadContact then Ok squadContact else
  team ← callFindOpt contacts
           (fun contact => t ← getProp contact "type"; Ok (strictEqString t "team"));
  teamContact ← getPropOpt team "contact";
  if truthy teamContact then Ok teamContact else
  Ok (JStr "unknown").

(** [repos.find(repo => repo.provider === "github") || repos[0]] with
    [repos = attributes.repos || []]. *)
Definition selectPrimaryRepo (attributes : JSValue) : Result JSValue :=
  r ← getProp attributes "repos";
  let repos := orElse r (JArr []) in
  github ← callFind repos
             (fun repo => p ← getProp repo "provider"; Ok (strictEqString p "github"));
  Ok (orElse github (firstElem repos)).

(** [["datadog", ...(attributes.tags || []),
      ...(attributes.tier ? [`tier-${attributes.tier}`] : [])]] *)
Definition buildTags (attributes : JSValue) : Result (list JSValue) :=
  t ← getProp attributes "tags";
  rawTags ← iterate (orElse t (JArr []));
  tier ← getProp attributes "tier";
  Ok (JStr "datadog" :: rawTags
        ++ (if truthy tier then [JStr ("tier-" +:+ toString tier)] else [])).

(** The three optional additions made after the entity literal. *)
Definition addRepository (primaryRepo : JSValue) (e : Entity) : Result Entity :=
  if negb (truthy primaryRepo) then Ok e else
  url ← getProp primaryRepo "url";
  if negb (truthy url) then Ok e else
  let m := metadata e in
  Ok (mkEntity (apiVersion e) (kind e)
        (mkEntityMeta (meta_name m) (meta_title m) (meta_description m)
           (<["backstage.io/source-location" := JStr ("url:" +:+ toString url +:+ "/")]>
              (meta_annotations m))
           (meta_tags m)
           (meta_links m ++ [mkEntityLink url "Repository" "code"]))
        (spec e) (relations e)).

Definition addAnnotation (key : string) (v : JSValue) (e : Entity) : Entity :=
  if negb (truthy v) then e else
  let m := metadata e in
  mkEntity (apiVersion e) (kind e)
    (mkEntityMeta (meta_name m) (meta_title m) (meta_description m)
       (<[key := v]> (meta_annotations m)) (meta_tags m) (meta_links m))
    (spec e) (relations e).

(** [createServiceEntity(service)]; [None] is the [null] result. *)
Definition createServiceEntity (this : DatadogServiceEntityProvider)
    (service : JSValue) : IO (option Entity) :=
  attributes ← lift (getProp service "attributes");
  rawName ← lift (if truthy attributes then getProp attributes "name" else Ok JUndefined);
  if negb (truthy attributes) || negb (truthy rawName) then
    _ ← logger Debug "Skipping service without name or attributes";
    mret None
  else
    lowered ← lift (callToLowerCase rawName);
    let name := Str.replace_non_name_chars lowered in
    owner ← lift (resolveOwner attributes);
    primaryRepo ← lift (selectPrimaryRepo attributes);
    relationships ← lift (extractRelationships service);
    _ ← emit (EvConsoleLog relationships);
    rawKind ← lift (getProp attributes "kind");
    description ← lift (getProp attributes "description");
    tags ← lift (buildTags attributes);
    lifecycle ← lift (getProp attributes "lifecycle");
    let entity :=
      mkEntity "backstage.io/v1alpha1"
        (if strictEqString rawKind "system" then "System" else "Component")
        (mkEntityMeta name rawName
           (orElse description
              (JStr ("Service " +:+ toString rawName +:+ " from Datadog catalog")))
           (list_to_map
              [ ("datadoghq.com/service-name", rawName);
                ("backstage.io/managed-by-location",
                  JStr ("datadog:" +:+ site (config this)));
                ("backstage.io/managed-by-origin-location",
                  JStr ("datadog:" +:+ site (config this))) ])
           tags [])
        (mkEntitySpec (orElse rawKind (JStr "service"))
           (orElse lifecycle (JStr "unknown")) owner)
        None in
    entity ← lift (addRepository primaryRepo entity);
    team ← lift (getProp attributes "team");
    application ← lift (getProp attributes "application");
    mret (Some (addAnnotation "datadoghq.com/application" application
                  (addAnnotation "datadoghq.com/team" team entity))).

(** *** The Datadog API *)

Record HttpResponse : Type := mkResponse
  { resp_ok : bool;
    resp_status : N;
    resp_statusText : string;
    resp_text : Result string;      (* [await response.text()] *)
    resp_json : Result JSValue }.   (* [await response.json()] *)

Inductive FetchResult : Type :=
| Rejected (e : Exn)
| Resolved (response : HttpResponse).

(** The remote side: what the [n]-th request of a run, for [url], gets. *)
Definition Api : Type := nat -> string -> FetchResult.

Definition limit : N := 100.

Definition pageUrl (this : DatadogServiceEntityProvider) (offset : N) : string :=
  baseUrl this +:+ "/api/v2/catalog/entity?include=schema&page[limit]="
    +:+ Str.of_N limit +:+ "&page[offset]=" +:+ Str.of_N offset.

(** [next.match(/page%5Boffset%5D=(\d+)/)]: the digits captured by the
    leftmost match. *)
Fixpoint matchOffset (next : string) : option string :=
  match
    match Str.strip_prefix "page%5Boffset%5D=" next with
    | Some rest => if nonEmpty (Str.take_digits rest)
                   then Some (Str.take_digits rest) else None
    | None => None
    end
  with
  | Some digits => Some digits
  | None => match next with
            | EmptyString => None
            | String _ next' => matchOffset next'
            end
  end.

(** The "check for next page" of the loop: the next offset when [hasNext]
    stays true, [None] when it becomes false. *)
Definition nextOffset (data : JSValue) : Result (option N) :=
  links ← getProp data "links";
  if negb (truthy links) then Ok None else
  next ← getProp links "next";
  match next with
  | JStr next =>
      if Str.includes next "page%5Boffset%5D=" then
        match matchOffset next with
        | Some digits => if nonEmpty digits then Ok (Some (Str.parseInt10 digits))
                         else Ok None
        | None => Ok None
        end
      else Ok None
  | _ => Ok None
  end.

(** The body of the [for ... of catalogEntities] loop: the entity to push,
    if any. *)
Definition mapRecord (this : DatadogServiceEntityProvider) (catalogEntity : JSValue)
  : IO (option Entity) :=
  tryCatch (createServiceEntity this catalogEntity)
    (fun error =>
       attributes ← lift (getProp catalogEntity "attributes");
       name ← lift (getPropOpt attributes "name");
       _ ← logger Warn ("Failed to create entity for service "
                          +:+ toString (orElse name (JStr "unknown")));
       mret None).

Fixpoint mapRecords (this : DatadogServiceEntityProvider) (catalogEntities : list JSValue)
    (backstageEntities : list Entity) : IO (list Entity) :=
  match catalogEntities with
  | [] => mret backstageEntities
  | catalogEntity :: rest =>
      e ← mapRecord this catalogEntity;
      mapRecords this rest
        (match e with
         | Some entity => backstageEntities ++ [entity]
         | None => backstageEntities
         end)
  end.

(** How one turn of the [while (hasNext)] loop ends. *)
Inductive LoopStep : Type :=
| Exit                      (* [break], or [hasNext = false] *)
| Again (offset : N).       (* [hasNext = true] with the new offset *)

(** One turn of the [while (hasNext)] loop of [discoverServices]. *)
Definition loopBody (this : DatadogServiceEntityProvider) (api : Api)
    (n : nat) (offset : N) (backstageEntities : list Entity)
  : IO (LoopStep * list Entity) :=
  let url := pageUrl this offset in
  _ ← emit (EvFetch url (headers this));
  match api n url with
  | Rejected e => throw e
  | Resolved response =>
      if negb (resp_ok response) then
        errorText ← lift (resp_text response);
        _ ← logger LogError ("Datadog API request failed: "
               +:+ Str.of_N (resp_status response) +:+ " " +:+ resp_statusText response);
        throw (Error ("HTTP " +:+ Str.of_N (resp_status response) +:+ ": "
                        +:+ resp_statusText response))
      else
        data ← lift (resp_json response);
        catalogEntities ← lift (if truthy data then getProp data "data" else Ok JUndefined);
        if negb (truthy data) || negb (truthy catalogEntities) then
          _ ← logger Warn "No entity data returned from Datadog Software Catalog API";
          mret (Exit, backstageEntities)
        else
          len ← lift (getProp catalogEntities "length");
          _ ← logger Info ("Fetched " +:+ toString len
                 +:+ " entities from Datadog Software Catalog (offset "
                 +:+ Str.of_N offset +:+ ")");
          records ← lift (iterate catalogEntities);
          entities ← mapRecords this records backstageEntities;
          next ← lift (nextOffset data);
          match next with
          | Some offset' => mret (Again offset', entities)
          | None => mret (Exit, entities)
          end
  end.

(** The [while (hasNext)] loop.  It runs as long as the API keeps answering
    with a next link; [fuel] bounds the number of turns, and [None] means
    that the bound was reached with the loop still running. *)
Fixpoint whileHasNext (this : DatadogServiceEntityProvider) (api : Api)
    (fuel : nat) (n : nat) (offset : N) (backstageEntities : list Entity)
  : option (IO (list Entity)) :=
  match fuel with
  | O => None
  | S fuel' =>
      let turn := loopBody this api n offset backstageEntities in
      match result turn with
      | Throw e => Some (mkIO (trace turn) (Throw e))
      | Ok (Exit, entities) => Some (mkIO (trace turn) (Ok entities))
      | Ok (Again offset', entities) =>
          match whileHasNext this api fuel' (S n) offset' entities with
          | Some rest => Some (mkIO (trace turn ++ trace rest) (result rest))
          | None => None
          end
      end
  end.

(** [discoverServices()] *)
Definition discoverServices (this : DatadogServiceEntityProvider) (api : Api)
    (fuel : nat) : option (IO (list Entity)) :=
  match whileHasNext this api fuel 0 0%N [] with
  | None => None
  | Some loop =>
      Some (tryCatch loop
              (fun error =>
                 _ ← logger LogError
                       ("Failed to fetch entities from Datadog Software Catalog: "
                          +:+ message error);
                 throw error))
  end.

(** [run()] *)
Definition run (this : DatadogServiceEntityProvider) (api : Api) (fuel : nat)
  : option (IO unit) :=
  match connection this with
  | None => Some (throw (Error "Not initialized"))
  | Some conn =>
      match discoverServices this api fuel with
      | None => None
      | Some discovery =>
          Some (_ ← logger Info "Discovering entities from Datadog Software Catalog";
                tryCatch
                  (entities ← discovery;
                   let mutation :=
                     mkMutation "full"
                       (List.map (fun entity => mkDeferredEntity entity getProviderName)
                          entities) in
                   _ ← emit (EvApplyMutation mutation);
                   _ ← lift (applyMutation conn mutation);
                   logger Info ("Discovered " +:+ Str.of_N (N.of_nat (length entities))
                                  +:+ " entities from Datadog Software Catalog"))
                  (fun error =>
                     _ ← logger LogError
                           "Failed to discover entities from Datadog Software Catalog";
                     throw error))
      end
  end.

(** The mutations submitted during a computation. *)
Definition mutations (t : list Event) : list Mutation :=
  omap (fun ev => match ev with EvApplyMutation m => Some m | _ => None end) t.

(** The requests made during a computation. *)
Definition fetches (t : list Event) : list string :=
  omap (fun ev => match ev with EvFetch url _ => Some url | _ => None end) t.

(** ** The specification's wording of the derived values

    Total readings of a record, to compare with what the code computes. *)

(** The property [k] of [v], [undefined] where there is none to read. *)
Definition field (v : JSValue) (k : string) : JSValue :=
  match getProp v k with
  | Ok x => x
  | Throw _ => JUndefined
  end.

Definition elements (v : JSValue) : list JSValue :=
  match v with
  | JArr elems => elems
  | _ => []
  end.

(** The [contact] of the first contact whose [type] is [ty]. *)
Definition firstContactOfType (ty : string) (attributes : JSValue) : JSValue :=
  match List.find (fun contact => strictEqString (field contact "type") ty)
          (elements (field attributes "contacts")) with
  | Some contact => field contact "contact"
  | None => JUndefined
  end.

(** Owner resolution order, first match wins: explicit owner, squad contact,
    team contact, "unknown"; a candidate matches when it is present (a
    truthy value). *)
Definition ownerSpec (attributes : JSValue) : JSValue :=
  if truthy (field attributes "owner") then field attributes "owner"
  else if truthy (firstContactOfType "squad" attributes)
       then firstContactOfType "squad" attributes
  else if truthy (firstContactOfType "team" attributes)
       then firstContactOfType "team" attributes
  else JStr "unknown".

(** The offset carried by the [links.next] of a page body: the number after
    the first "page%5Boffset%5D=" that is followed by a digit, when
    [links.next] is a string that has one. *)
Definition nextOffsetSpec (data : JSValue) : option N :=
  match field (field data "links") "next" with
  | JStr next => option_map Str.parseInt10 (matchOffset next)
  | _ => None
  end.


(** What the additions after the entity literal leave alone. *)
Definition sameCore (e e' : Entity) : Prop :=
  apiVersion e' = apiVersion e /\ kind e' = kind e /\ spec e' = spec e
  /\ relations e' = relations e
  /\ meta_name (metadata e') = meta_name (metadata e)
  /\ meta_title (metadata e') = meta_title (metadata e)
  /\ meta_description (metadata e') = meta_description (metadata e)
  /\ meta_tags (metadata e') = meta_tags (metadata e)
  /\ forall k v, meta_annotations (metadata e) !! k = Some v ->
       k <> "backstage.io/source-location" -> k <> "datadoghq.com/team" ->
       k <> "datadoghq.com/application" ->
       meta_annotations (metadata e') !! k = Some v.

(** Events that stay inside the process: log lines. *)
Definition isLocal (ev : Event) : Prop :=
  match ev with
  | EvLog _ _ | EvConsoleLog _ => True
  | EvFetch _ _ | EvApplyMutation _ => False
  end.

(** A computation that neither calls the API nor the catalog. *)
Definition quiet {A : Type} (m : IO A) : Prop := Forall isLocal (trace m).

(** Every character of the string is a decimal digit. *)
Fixpoint all_digits (s : string) : bool :=
  match s with
  | EmptyString => true
  | String c s' => Str.is_digit c && all_digits s'
  end.

(** ** Sample inputs *)

(** A raw record carrying one relationship descriptor with identifier [id]. *)
Definition recordWithRelationship (id : string) : JSValue :=
  JObj [ ("attributes", JObj [("name", JStr "music-player-app")]);
         ("relationships",
           JObj [("relatedEntities", JObj [("data", JArr [JObj [("id", JStr id)]])])]) ].

(** The relationship identifier of the source's comments. *)
Definition exampleId : string :=
  "frontend:default/music-player-app:RelationTypeDependsOn:service:default/music-player-service".

Definition sampleProvider : DatadogServiceEntityProvider :=
  newProvider (mkConfig "api-key" "app-key" "datadoghq.com").

(** The record of the specification's scenario: no owner, a squad contact. *)
Definition sampleRecord : JSValue :=
  JObj [ ("attributes",
           JObj [ ("name", JStr "My Service!");
                  ("owner", JNull);
                  ("contacts",
                    JArr [ JObj [("type", JStr "team"); ("contact", JStr "team-y")];
                           JObj [("type", JStr "squad"); ("contact", JStr "team-x")] ]) ]) ].

(** A relationship identifier whose target is written in three segments. *)
Definition threeSegmentId : string :=
  "frontend:default/music-player-app:RelationTypeDependsOn:service:default:music-player-service".

(** A catalog connection that accepts every mutation. *)
Definition acceptAll : EntityProviderConnection := mkConnection (fun _ => Ok tt).

Definition okResponse (body : JSValue) : FetchResult :=
  Resolved (mkResponse true 200 "OK" (Ok "") (Ok body)).

Definition firstPageBody : JSValue :=
  JObj [ ("data", JArr [sampleRecord]);
         ("links",
           JObj [("next",
                  JStr "https://api.datadoghq.com/api/v2/catalog/entity?page%5Blimit%5D=100&page%5Boffset%5D=250")]) ].

(** An API with two pages: one record and a next link for offset 250, then a
    body without [data]. *)
Definition twoPageApi : Api := fun n _ =>
  match n with
  | O => okResponse firstPageBody
  | _ => okResponse (JObj [("meta", JObj [])])
  end.

(** An API whose only page holds a [null] record before a regular one. *)
Definition nullRecordApi : Api := fun _ _ =>
  okResponse (JObj [("data", JArr [JNull; sampleRecord])]).

(** The entity made from [sampleRecord]. *)
Definition sampleEntities : list Entity :=
  match result (mapRecords sampleProvider [sampleRecord] []) with
  | Ok entities => entities
  | Throw _ => []
  end.

(** The discovery phase against [twoPageApi]. *)
Definition sampleDiscovery : IO (list Entity) :=
  match discoverServices (connect sampleProvider acceptAll) twoPageApi 3 with
  | Some discovery => discovery
  | None => mkIO [] (Ok [])
  end.

(** ** Shapes of raw data *)

(** The character [c] does not occur in [s]. *)
Fixpoint lacks (c : ascii) (s : string) : bool :=
  match s with
  | EmptyString => true
  | String c' s' => negb (Ascii.eqb c' c) && lacks c s'
  end.

(** No segment of the list begins with the relation-type marker. *)
Definition noMarker (parts : list string) : Prop :=
  Forall (fun p => Str.startsWith p "RelationType" = false) parts.

(** The relation types the translator can emit. *)
Definition backstageRelationTypes : list string :=
  ["dependsOn"; "dependencyOf"; "ownedBy"; "ownerOf"; "partOf"; "hasPart"].

(** A reference string [kind:namespace/name] with a lowercased kind and three
    non-empty components free of colons. *)
Definition isEntityRefString (s : string) : Prop :=
  exists kind namespace name,
    s = Str.toLowerCase kind +:+ ":" +:+ namespace +:+ "/" +:+ name
    /\ nonEmpty kind = true /\ nonEmpty namespace = true /\ nonEmpty name = true
    /\ lacks ":" kind = true /\ lacks ":" namespace = true /\ lacks ":" name = true.

(** A record with a name and one relationship descriptor. *)
Definition namedRecordWithRelationships (relatedEntities : JSValue) : JSValue :=
  JObj [ ("attributes", JObj [("name", JStr "checkout")]);
         ("relationships", JObj [("relatedEntities", relatedEntities)]) ].

(** ** The entity literal and the result of a mapping *)

(** The object literal of [createServiceEntity], from the values computed
    before it. *)
Definition entityLiteral (this : DatadogServiceEntityProvider) (attributes : JSValue)
    (rawName : string) (owner : JSValue) (tags : list JSValue) : Entity :=
  mkEntity "backstage.io/v1alpha1"
    (if strictEqString (field attributes "kind") "system" then "System" else "Component")
    (mkEntityMeta (normalizeName rawName) (JStr rawName)
       (orElse (field attributes "description")
          (JStr ("Service " +:+ rawName +:+ " from Datadog catalog")))
       (list_to_map
          [ ("datadoghq.com/service-name", JStr rawName);
            ("backstage.io/managed-by-location",
              JStr ("datadog:" +:+ site (config this)));
            ("backstage.io/managed-by-origin-location",
              JStr ("datadog:" +:+ site (config this))) ])
       tags [])
    (mkEntitySpec (orElse (field attributes "kind") (JStr "service"))
       (orElse (field attributes "lifecycle") (JStr "unknown")) owner)
    None.

(** What [createServiceEntity] returns or throws, its log lines left out. *)
Definition mappingResult (this : DatadogServiceEntityProvider) (service : JSValue)
  : Result (option Entity) :=
  attributes ← getProp service "attributes";
  if negb (truthy attributes) || negb (truthy (field attributes "name")) then Ok None else
  match field attributes "name" with
  | JStr rawName =>
      owner ← resolveOwner attributes;
      primaryRepo ← selectPrimaryRepo attributes;
      _ ← extractRelationships service;
      tags ← buildTags attributes;
      base ← addRepository primaryRepo (entityLiteral this attributes rawName owner tags);
      Ok (Some (addAnnotation "datadoghq.com/application" (field attributes "application")
                  (addAnnotation "datadoghq.com/team" (field attributes "team") base)))
  | _ => Throw (TypeError "toLowerCase is not a function")
  end.

(** The repository the link is built from: the first one whose provider is
    "github", else the first one, [undefined] without repositories. *)
Definition primaryRepoOf (attributes : JSValue) : JSValue :=
  match List.find (fun repo => strictEqString (field repo "provider") "github")
          (elements (field attributes "repos")) with
  | Some repo => repo
  | None => firstElem (JArr (elements (field attributes "repos")))
  end.

(** The annotation keys an entity can carry. *)
Definition annotationKeys : list string :=
  [ "datadoghq.com/service-name";
    "backstage.io/managed-by-location";
    "backstage.io/managed-by-origin-location";
    "backstage.io/source-location";
    "datadoghq.com/team";
    "datadoghq.com/application" ].

(** The sample record with two repositories, tags, a tier and a team. *)
Definition richRecord : JSValue :=
  JObj [ ("attributes",
           JObj [ ("name", JStr "Checkout API");
                  ("kind", JStr "system");
                  ("owner", JStr "payments");
                  ("tags", JArr [JStr "lang:go"; JStr "env:prod"]);
                  ("tier", JStr "1");
                  ("team", JStr "payments-core");
                  ("repos",
                    JArr [ JObj [("provider", JStr "gitlab");
                                 ("url", JStr "https://gitlab.com/acme/checkout")];
                           JObj [("provider", JStr "github");
                                 ("url", JStr "https://github.com/acme/checkout")] ]) ]) ].

Definition isObject (v : JSValue) : bool :=
  match v with JObj _ => true | _ => false end.

(** Absent, or an array whose elements are all objects. *)
Definition absentOrObjects (v : JSValue) : bool :=
  match v with
  | JUndefined | JNull => true
  | JArr elems => forallb isObject elems
  | _ => false
  end.

(** Absent, or a value a spread can visit. *)
Definition absentOrIterable (v : JSValue) : bool :=
  match v with
  | JUndefined | JNull | JArr _ | JStr _ => true
  | _ => false
  end.

(** A record of the expected shape: a non-empty string name, contacts and
    repositories that are lists of objects when present, tags that are a
    list when present. *)
Definition wellShaped (service : JSValue) : bool :=
  let attributes := field service "attributes" in
  match field attributes "name" with
  | JStr rawName => nonEmpty rawName
  | _ => false
  end
  && absentOrObjects (field attributes "contacts")
  && absentOrObjects (field attributes "repos")
  && absentOrIterable (field attributes "tags").

(** What every entity made by the provider satisfies. *)
Definition producedEntity (e : Entity) : Prop :=
  apiVersion e = "backstage.io/v1alpha1"
  /\ (kind e = "System" \/ kind e = "Component")
  /\ meta_name (metadata e) <> ""
  /\ all_name_chars (meta_name (metadata e)) = true
  /\ truthy (meta_description (metadata e)) = true
  /\ (exists rest, meta_tags (metadata e) = JStr "datadog" :: rest)
  /\ truthy (spec_type (spec e)) = true
  /\ truthy (spec_lifecycle (spec e)) = true
  /\ truthy (spec_owner (spec e)) = true
  /\ relations e = None.

(** The request events of a trace, with their headers. *)
Definition requests (t : list Event) : list (string * list (string * string)) :=
  omap (fun ev => match ev with EvFetch url hs => Some (url, hs) | _ => None end) t.

(** An API that answers every request with one record and a next link for
    offset 0. *)
Definition cyclicBody : JSValue :=
  JObj [ ("data", JArr [sampleRecord]);
         ("links", JObj [("next", JStr "/api/v2/catalog/entity?page%5Boffset%5D=0")]) ].

Definition cyclicApi : Api := fun _ _ => okResponse cyclicBody.


(** * Properties *)

(** ** The two monads *)

Lemma result_bind {A B : Type} (m : IO A) (f : A -> IO B) :
  result (m ≫= f) =
  match result m with
  | Ok a => result (f a)
  | Throw e => Throw e
  end.
Proof. unfold mbind, IO_bind. destruct (result m); reflexivity. Qed.

Lemma trace_bind {A B : Type} (m : IO A) (f : A -> IO B) :
  trace (m ≫= f) =
  match result m with
  | Ok a => trace m ++ trace (f a)
  | Throw _ => trace m
  end.
Proof. unfold mbind, IO_bind. destruct (result m); reflexivity. Qed.

Lemma result_tryCatch {A : Type} (m : IO A) (h : Exn -> IO A) :
  result (tryCatch m h) =
  match result m with
  | Ok a => Ok a
  | Throw e => result (h e)
  end.
Proof. unfold tryCatch. destruct (result m) eqn:E; simpl; [exact E | reflexivity]. Qed.

Lemma trace_tryCatch {A : Type} (m : IO A) (h : Exn -> IO A) :
  trace (tryCatch m h) =
  match result m with
  | Ok _ => trace m
  | Throw e => trace m ++ trace (h e)
  end.
Proof. unfold tryCatch. destruct (result m); reflexivity. Qed.

Lemma IO_ext {A : Type} (m1 m2 : IO A) :
  trace m1 = trace m2 -> result m1 = result m2 -> m1 = m2.
Proof. destruct m1, m2; simpl; intros -> ->; reflexivity. Qed.

(** ** Name derivation *)
Lemma name_char_lower_fixed (c : ascii) :
  Str.name_char c = true -> Str.lower_char c = c.
Proof.
  destruct c as [[] [] [] [] [] [] [] []]; vm_compute; congruence.
Qed.

Lemma normalize_char_name_char (c : ascii) :
  Str.name_char (normalize_char c) = true.
Proof.
  unfold normalize_char.
  destruct (Str.name_char (Str.lower_char c)) eqn:E; [exact E | reflexivity].
Qed.

Lemma normalizeName_pointwise (x : string) :
  normalizeName x = Str.map_chars normalize_char x.
Proof.
  unfold normalizeName, Str.replace_non_name_chars, Str.toLowerCase.
  induction x as [| c x IH]; simpl; [reflexivity |].
  now rewrite IH.
Qed.

Lemma map_chars_length (f : ascii -> ascii) (s : string) :
  String.length (Str.map_chars f s) = String.length s.
Proof. induction s as [| c s IH]; simpl; congruence. Qed.

Lemma normalizeName_fixed (s : string) :
  all_name_chars s = true -> normalizeName s = s.
Proof.
  rewrite normalizeName_pointwise.
  induction s as [| c s IH]; simpl; [reflexivity |].
  intros [Hc Hs]%andb_prop.
  rewrite (IH Hs). unfold normalize_char.
  rewrite (name_char_lower_fixed c Hc), Hc. reflexivity.
Qed.

Lemma normalizeName_all_name_chars (x : string) :
  all_name_chars (normalizeName x) = true.
Proof.
  rewrite normalizeName_pointwise.
  induction x as [| c x IH]; simpl; [reflexivity |].
  now rewrite normalize_char_name_char, IH.
Qed.

(** C5: the derived name is the lowercased raw name in which every
    character outside [a-z0-9-] is replaced by one dash, character by
    character (consecutive dashes stay); it consists of characters of
    [a-z0-9-] only, deriving again changes nothing, and "My Service!"
    derives to "my-service-". *)
Theorem C5_normalizeName (x : string) :
  normalizeName x =
    Str.map_chars (fun c => if Str.name_char c then c else "-"%char) (Str.toLowerCase x)
  /\ String.length (normalizeName x) = String.length (Str.toLowerCase x)
  /\ all_name_chars (normalizeName x) = true
  /\ normalizeName (normalizeName x) = normalizeName x
  /\ normalizeName "My Service!" = "my-service-"
  /\ normalizeName "a  b__c" = "a--b--c".
Proof.
  split; [reflexivity |].
  split; [apply map_chars_length |].
  split; [apply normalizeName_all_name_chars |].
  split; [apply normalizeName_fixed, normalizeName_all_name_chars |].
  split; reflexivity.
Qed.

(** ** Relationship translation *)

(** C2: on the identifier of the scenario (the example of the source's own
    comments) the translator produces no relation at all: splitting on ':'
    leaves two segments after the marker, "service" and
    "default/music-player-service", so the third one that
    [parseDdEntityRef] reads as the name is missing and the descriptor is
    skipped.  With the target written in three segments the relation is
    produced. *)
Theorem C2_example_id_is_skipped :
  Str.split ":" exampleId =
    ["frontend"; "default/music-player-app"; "RelationTypeDependsOn";
     "service"; "default/music-player-service"]
  /\ parseDdEntityRef exampleId = None
  /\ extractRelationships (recordWithRelationship exampleId) = Ok []
  /\ extractRelationships
       (recordWithRelationship threeSegmentId)
     = Ok [mkRelation "dependsOn" "service:default/music-player-service"].
Proof. repeat split; vm_compute; reflexivity. Qed.

(** ** createServiceEntity *)

Lemma getProp_truthy_field (v : JSValue) (k : string) :
  truthy v = true -> getProp v k = Ok (field v k).
Proof. destruct v; simpl; try discriminate; reflexivity. Qed.

Lemma sameCore_refl (e : Entity) : sameCore e e.
Proof. unfold sameCore; repeat split; auto. Qed.

Lemma sameCore_trans (e1 e2 e3 : Entity) :
  sameCore e1 e2 -> sameCore e2 e3 -> sameCore e1 e3.
Proof.
  unfold sameCore.
  intros (A1 & A2 & A3 & A4 & A5 & A6 & A7 & A8 & A9)
         (B1 & B2 & B3 & B4 & B5 & B6 & B7 & B8 & B9).
  repeat split; try congruence.
  intros k v Hk N1 N2 N3. apply B9; auto.
Qed.

Lemma addAnnotation_sameCore (key : string) (v : JSValue) (e : Entity) :
  key = "datadoghq.com/team" \/ key = "datadoghq.com/application" ->
  sameCore e (addAnnotation key v e).
Proof.
  intros Hkey. unfold addAnnotation.
  destruct (truthy v); simpl; [| apply sameCore_refl].
  unfold sameCore; simpl; repeat split; auto.
  intros k w Hk N1 N2 N3.
  rewrite lookup_insert_ne; [exact Hk |].
  destruct Hkey; congruence.
Qed.

Lemma addRepository_sameCore (primaryRepo : JSValue) (e base : Entity) :
  addRepository primaryRepo e = Ok base -> sameCore e base.
Proof.
  unfold addRepository.
  destruct (truthy primaryRepo); simpl.
  - destruct (getProp primaryRepo "url") as [url |]; simpl; [| discriminate].
    destruct (truthy url); simpl; intros [= <-]; [| apply sameCore_refl].
    unfold sameCore; simpl; repeat split; auto.
    intros k w Hk N1 N2 N3.
    rewrite lookup_insert_ne; [exact Hk | congruence].
  - intros [= <-]. apply sameCore_refl.
Qed.

Ltac bind_step H :=
  cbn beta iota in H; rewrite result_bind in H; cbn [lift emit result] in H.

(** Inversion of a successful mapping: the record has an attribute block
    with a non-empty string name, and the entity's core fields are those of
    the entity literal. *)
Lemma createServiceEntity_Some (this : DatadogServiceEntityProvider)
    (service : JSValue) (e : Entity) :
  result (createServiceEntity this service) = Ok (Some e) ->
  exists rawName owner tags,
    let attributes := field service "attributes" in
    truthy attributes = true
    /\ field attributes "name" = JStr rawName
    /\ rawName <> ""
    /\ resolveOwner attributes = Ok owner
    /\ buildTags attributes = Ok tags
    /\ sameCore
         (mkEntity "backstage.io/v1alpha1"
            (if strictEqString (field attributes "kind") "system"
             then "System" else "Component")
            (mkEntityMeta (normalizeName rawName) (JStr rawName)
               (orElse (field attributes "description")
                  (JStr ("Service " +:+ rawName +:+ " from Datadog catalog")))
               (list_to_map
                  [ ("datadoghq.com/service-name", JStr rawName);
                    ("backstage.io/managed-by-location",
                      JStr ("datadog:" +:+ site (config this)));
                    ("backstage.io/managed-by-origin-location",
                      JStr ("datadog:" +:+ site (config this))) ])
               tags [])
            (mkEntitySpec (orElse (field attributes "kind") (JStr "service"))
               (orElse (field attributes "lifecycle") (JStr "unknown")) owner)
            None)
         e.
Proof.
  unfold createServiceEntity. intros H.
  bind_step H.
  destruct (getProp service "attributes") as [attributes |] eqn:Ha; [| discriminate].
  assert (Hf : field service "attributes" = attributes)
    by (unfold field; rewrite Ha; reflexivity).
  cbn zeta. rewrite Hf. clear Hf Ha.
  bind_step H.
  destruct (truthy attributes) eqn:Ht; [| cbn in H; discriminate].
  rewrite (getProp_truthy_field _ "name" Ht) in H.
  destruct (truthy (field attributes "name")) eqn:Hn; [| cbn in H; discriminate].
  cbn [negb orb] in H.
  bind_step H.
  destruct (field attributes "name") as [| | | | rawName | |] eqn:Hname;
    try discriminate H.
  cbn [callToLowerCase] in H.
  bind_step H.
  destruct (resolveOwner attributes) as [owner |]; [| discriminate].
  bind_step H.
  destruct (selectPrimaryRepo attributes) as [primaryRepo |]; [| discriminate].
  bind_step H.
  destruct (extractRelationships service) as [relationships |]; [| discriminate].
  bind_step H. bind_step H.
  rewrite (getProp_truthy_field _ "kind" Ht) in H.
  bind_step H.
  rewrite (getProp_truthy_field _ "description" Ht) in H.
  bind_step H.
  destruct (buildTags attributes) as [tags |]; [| discriminate].
  bind_step H.
  rewrite (getProp_truthy_field _ "lifecycle" Ht) in H.
  bind_step H.
  match type of H with
  | context [addRepository ?r ?lit] =>
      destruct (addRepository r lit) as [base |] eqn:Hbase; [| discriminate]
  end.
  bind_step H.
  rewrite (getProp_truthy_field _ "team" Ht) in H.
  bind_step H.
  rewrite (getProp_truthy_field _ "application" Ht) in H.
  cbn in H. injection H as <-.
  exists rawName, owner, tags.
  refine (conj eq_refl (conj eq_refl (conj _ (conj eq_refl (conj eq_refl _))))).
  - intros ->. discriminate Hn.
  - eapply sameCore_trans; [exact (addRepository_sameCore _ _ _ Hbase) |].
    eapply sameCore_trans; apply addAnnotation_sameCore; auto.
Qed.

(** The name of a produced entity is the derived name of the raw name, and
    its title the raw name itself. *)
Lemma createServiceEntity_name (this : DatadogServiceEntityProvider)
    (service : JSValue) (e : Entity) :
  result (createServiceEntity this service) = Ok (Some e) ->
  exists rawName,
    field (field service "attributes") "name" = JStr rawName
    /\ meta_name (metadata e) = normalizeName rawName
    /\ meta_title (metadata e) = JStr rawName.
Proof.
  intros H.
  destruct (createServiceEntity_Some this service e H)
    as (rawName & owner & tags & _ & Hname & _ & _ & _ & Hcore).
  destruct Hcore as (_ & _ & _ & _ & Hn & Ht & _).
  exists rawName. auto.
Qed.

(** ** Owner resolution *)

Lemma findM_contact_type (ty : string) (contacts : list JSValue) (v : JSValue) :
  findM (fun contact => t ← getProp contact "type"; Ok (strictEqString t ty)) contacts
    = Ok v ->
  v = match List.find (fun contact => strictEqString (field contact "type") ty) contacts with
      | Some contact => contact
      | None => JUndefined
      end
  /\ (v = JUndefined \/ exists props, v = JObj props).
Proof.
  induction contacts as [| c rest IH]; simpl.
  - intros [= <-]. auto.
  - unfold field. destruct (getProp c "type") as [t |] eqn:Ht; simpl; [| discriminate].
    destruct (strictEqString t ty) eqn:Heq; [| exact IH].
    intros [= <-]. split; [reflexivity |]. right.
    destruct c; simpl in Ht; try discriminate;
      try (injection Ht as <-; simpl in Heq; discriminate Heq).
    eauto.
Qed.

Lemma contact_lookup (ty : string) (attributes contacts found : JSValue) :
  field attributes "contacts" = contacts ->
  callFindOpt contacts
    (fun contact => t ← getProp contact "type"; Ok (strictEqString t ty)) = Ok found ->
  getPropOpt found "contact" = Ok (firstContactOfType ty attributes).
Proof.
  intros Hc Hfind. unfold firstContactOfType. rewrite Hc.
  destruct contacts; simpl in Hfind; try discriminate;
    try (injection Hfind as <-; reflexivity).
  apply findM_contact_type in Hfind as [-> Hshape]. simpl.
  destruct (List.find _ elems) as [c |]; [| reflexivity].
  destruct Hshape as [-> | [props ->]]; reflexivity.
Qed.

Lemma resolveOwner_spec (attributes owner : JSValue) :
  resolveOwner attributes = Ok owner -> owner = ownerSpec attributes.
Proof.
  unfold resolveOwner, ownerSpec, field at 1 2.
  destruct (getProp attributes "owner") as [o |]; cbn [mbind Result_bind];
    [| intros [=]].
  destruct (truthy o); [intros [= <-]; reflexivity |].
  destruct (getProp attributes "contacts") as [contacts |] eqn:Hc;
    cbn [mbind Result_bind]; [| intros [=]].
  assert (Hf : field attributes "contacts" = contacts)
    by (unfold field; rewrite Hc; reflexivity).
  destruct (callFindOpt contacts
              (fun contact => t ← getProp contact "type"; Ok (strictEqString t "squad")))
    as [squad |] eqn:Hsquad;
    cbn [mbind Result_bind]; [| intros [=]].
  rewrite (contact_lookup "squad" attributes contacts squad Hf Hsquad).
  cbn [mbind Result_bind].
  destruct (truthy (firstContactOfType "squad" attributes)); [intros [= <-]; reflexivity |].
  destruct (callFindOpt contacts
              (fun contact => t ← getProp contact "type"; Ok (strictEqString t "team")))
    as [team |] eqn:Hteam;
    cbn [mbind Result_bind]; [| intros [=]].
  rewrite (contact_lookup "team" attributes contacts team Hf Hteam).
  cbn [mbind Result_bind].
  destruct (truthy (firstContactOfType "team" attributes)); intros [= <-]; reflexivity.
Qed.

(** C6: the owner of a produced entity is the first present candidate of the
    chain explicit owner, contact of the first squad contact, contact of the
    first team contact, "unknown".  An explicit owner wins over any contact,
    and a squad contact wins over a team contact. *)
Theorem C6_owner_resolution (this : DatadogServiceEntityProvider)
    (service : JSValue) (e : Entity) :
  result (createServiceEntity this service) = Ok (Some e) ->
  let attributes := field service "attributes" in
  spec_owner (spec e) = ownerSpec attributes
  /\ (truthy (field attributes "owner") = true ->
      spec_owner (spec e) = field attributes "owner")
  /\ (truthy (field attributes "owner") = false ->
      truthy (firstContactOfType "squad" attributes) = true ->
      spec_owner (spec e) = firstContactOfType "squad" attributes)
  /\ (truthy (field attributes "owner") = false ->
      truthy (firstContactOfType "squad" attributes) = false ->
      truthy (firstContactOfType "team" attributes) = true ->
      spec_owner (spec e) = firstContactOfType "team" attributes)
  /\ (truthy (field attributes "owner") = false ->
      truthy (firstContactOfType "squad" attributes) = false ->
      truthy (firstContactOfType "team" attributes) = false ->
      spec_owner (spec e) = JStr "unknown").
Proof.
  intros H attributes.
  destruct (createServiceEntity_Some this service e H)
    as (rawName & owner & tags & _ & _ & _ & Ho & _ & Hcore).
  destruct Hcore as (_ & _ & Hspec & _).
  apply resolveOwner_spec in Ho. fold attributes in Ho.
  assert (E : spec_owner (spec e) = ownerSpec attributes)
    by (rewrite Hspec; simpl; exact Ho).
  split; [exact E |]. rewrite E. unfold ownerSpec.
  repeat split; intros; repeat match goal with
                               | Hy : truthy _ = _ |- _ => rewrite Hy; clear Hy
                               end; reflexivity.
Qed.

Lemma C6_owner_resolution_witness :
  exists e, result (createServiceEntity sampleProvider sampleRecord) = Ok (Some e)
            /\ spec_owner (spec e) = JStr "team-x".
Proof.
  eexists. split; [vm_compute; reflexivity |].
  refine (proj1 (proj2 (proj2
    (C6_owner_resolution sampleProvider sampleRecord _ _))) _ _);
    vm_compute; reflexivity.
Defined.

(** ** Defaults and provenance *)

(** C10: in every produced entity the description is the raw description or,
    without one, "Service {rawName} from Datadog catalog"; [spec.type] is
    the raw kind or, without one, "service"; [spec.lifecycle] is the raw
    lifecycle or, without one, "unknown"; and the three provenance
    annotations are present.  "Without" covers an absent property and any
    other falsy value. *)
Theorem C10_defaults_and_provenance (this : DatadogServiceEntityProvider)
    (service : JSValue) (e : Entity) :
  result (createServiceEntity this service) = Ok (Some e) ->
  exists rawName,
    let attributes := field service "attributes" in
    field attributes "name" = JStr rawName
    /\ meta_description (metadata e) =
         (if truthy (field attributes "description")
          then field attributes "description"
          else JStr ("Service " +:+ rawName +:+ " from Datadog catalog"))
    /\ spec_type (spec e) =
         (if truthy (field attributes "kind") then field attributes "kind"
          else JStr "service")
    /\ spec_lifecycle (spec e) =
         (if truthy (field attributes "lifecycle") then field attributes "lifecycle"
          else JStr "unknown")
    /\ meta_annotations (metadata e) !! "datadoghq.com/service-name"
         = Some (JStr rawName)
    /\ meta_annotations (metadata e) !! "backstage.io/managed-by-location"
         = Some (JStr ("datadog:" +:+ site (config this)))
    /\ meta_annotations (metadata e) !! "backstage.io/managed-by-origin-location"
         = Some (JStr ("datadog:" +:+ site (config this))).
Proof.
  intros H.
  destruct (createServiceEntity_Some this service e H)
    as (rawName & owner & tags & _ & Hname & _ & _ & _ & Hcore).
  destruct Hcore as (_ & _ & Hspec & _ & _ & _ & Hdesc & _ & Hann).
  exists rawName. cbn zeta. rewrite Hspec, Hdesc. cbn [spec_type spec_lifecycle
    meta_description metadata spec].
  repeat split; try exact Hname; try reflexivity;
    apply Hann; try discriminate; reflexivity.
Qed.

Lemma C10_defaults_and_provenance_witness :
  exists e, result (createServiceEntity sampleProvider sampleRecord) = Ok (Some e)
            /\ meta_description (metadata e)
                 = JStr "Service My Service! from Datadog catalog"
            /\ spec_type (spec e) = JStr "service"
            /\ spec_lifecycle (spec e) = JStr "unknown"
            /\ meta_annotations (metadata e) !! "backstage.io/managed-by-location"
                 = Some (JStr "datadog:datadoghq.com").
Proof.
  eexists. split; [vm_compute; reflexivity |].
  match goal with
  | |- context [metadata ?e] =>
      destruct (C10_defaults_and_provenance sampleProvider sampleRecord e)
        as (rawName & Hname & Hd & Ht & Hl & _ & Ha & _);
        [vm_compute; reflexivity |]
  end.
  injection Hname as <-.
  exact (conj Hd (conj Ht (conj Hl Ha))).
Defined.

(** ** Relations of a produced entity *)

Lemma createServiceEntity_relations (this : DatadogServiceEntityProvider)
    (service : JSValue) (e : Entity) :
  result (createServiceEntity this service) = Ok (Some e) -> relations e = None.
Proof.
  intros H.
  destruct (createServiceEntity_Some this service e H)
    as (rawName & owner & tags & _ & _ & _ & _ & _ & Hcore).
  destruct Hcore as (_ & _ & _ & Hrel & _). exact Hrel.
Qed.

(** C1: the translated relations are computed and printed on the console,
    but the entity that is returned carries none: on a record with one
    translatable relationship the translator yields one relation and the
    entity's [relations] is left undefined. *)
Theorem C1_relations_not_attached :
  extractRelationships (recordWithRelationship threeSegmentId)
    = Ok [mkRelation "dependsOn" "service:default/music-player-service"]
  /\ trace (createServiceEntity sampleProvider (recordWithRelationship threeSegmentId))
     = [EvConsoleLog [mkRelation "dependsOn" "service:default/music-player-service"]]
  /\ exists e,
       result (createServiceEntity sampleProvider (recordWithRelationship threeSegmentId))
         = Ok (Some e)
       /\ relations e = None.
Proof.
  split; [vm_compute; reflexivity |].
  split; [vm_compute; reflexivity |].
  eexists. split; [vm_compute; reflexivity | reflexivity].
Qed.

(** ** Traces *)

Lemma mutations_app (t1 t2 : list Event) :
  mutations (t1 ++ t2) = mutations t1 ++ mutations t2.
Proof. unfold mutations. apply omap_app. Qed.

Lemma local_no_mutations (t : list Event) : Forall isLocal t -> mutations t = [].
Proof.
  induction 1 as [| ev t Hev _ IH]; [reflexivity |].
  destruct ev; simpl in Hev; try contradiction; exact IH.
Qed.


Lemma quiet_ret {A : Type} (a : A) : quiet (mret a : IO A).
Proof. constructor. Qed.

Lemma quiet_lift {A : Type} (r : Result A) : quiet (lift r).
Proof. constructor. Qed.

Lemma quiet_logger (level : LogLevel) (msg : string) : quiet (logger level msg).
Proof. repeat constructor. Qed.

Lemma quiet_console (rels : list Relation) : quiet (emit (EvConsoleLog rels)).
Proof. repeat constructor. Qed.

Lemma quiet_bind {A B : Type} (m : IO A) (f : A -> IO B) :
  quiet m -> (forall a, quiet (f a)) -> quiet (m ≫= f).
Proof.
  unfold quiet. intros Hm Hf. rewrite trace_bind.
  destruct (result m); [| exact Hm].
  apply Forall_app; split; [exact Hm | apply Hf].
Qed.

Lemma quiet_tryCatch {A : Type} (m : IO A) (h : Exn -> IO A) :
  quiet m -> (forall e, quiet (h e)) -> quiet (tryCatch m h).
Proof.
  unfold quiet. intros Hm Hh. rewrite trace_tryCatch.
  destruct (result m); [exact Hm |].
  apply Forall_app; split; [exact Hm | apply Hh].
Qed.

Create HintDb quiet.
#[local] Hint Resolve quiet_ret quiet_lift quiet_logger quiet_console : quiet.

Ltac quiet_steps :=
  repeat first
    [ progress auto with quiet
    | apply quiet_bind; [| intros ?]
    | apply quiet_tryCatch; [| intros ?]
    | match goal with
      | |- quiet (if ?b then _ else _) => destruct b
      | |- quiet (match ?x with _ => _ end) => destruct x
      end ].

Lemma createServiceEntity_quiet (this : DatadogServiceEntityProvider) (service : JSValue) :
  quiet (createServiceEntity this service).
Proof. unfold createServiceEntity. quiet_steps. Qed.

Lemma mapRecord_quiet (this : DatadogServiceEntityProvider) (catalogEntity : JSValue) :
  quiet (mapRecord this catalogEntity).
Proof.
  unfold mapRecord. apply quiet_tryCatch; [apply createServiceEntity_quiet |].
  intros e. quiet_steps.
Qed.

Lemma mapRecords_quiet (this : DatadogServiceEntityProvider)
    (catalogEntities : list JSValue) (acc : list Entity) :
  quiet (mapRecords this catalogEntities acc).
Proof.
  revert acc. induction catalogEntities as [| r rest IH]; intros acc; simpl.
  - apply quiet_ret.
  - apply quiet_bind; [apply mapRecord_quiet | intros e; apply IH].
Qed.

(** Each turn of the loop makes one request, for its own offset, and nothing
    else that leaves the process. *)
Lemma loopBody_trace (this : DatadogServiceEntityProvider) (api : Api)
    (n : nat) (offset : N) (acc : list Entity) :
  exists t, trace (loopBody this api n offset acc)
              = EvFetch (pageUrl this offset) (headers this) :: t
            /\ Forall isLocal t.
Proof.
  unfold loopBody. cbn zeta. rewrite trace_bind. cbn [emit result trace app].
  eexists. split; [reflexivity |].
  match goal with |- Forall isLocal (trace ?m) => change (quiet m) end.
  destruct (api n (pageUrl this offset)) as [e | response]; [constructor |].
  destruct (negb (resp_ok response)).
  - quiet_steps. constructor.
  - apply quiet_bind; [apply quiet_lift | intros data].
    apply quiet_bind; [apply quiet_lift | intros catalogEntities].
    destruct (negb (truthy data) || negb (truthy catalogEntities)).
    + quiet_steps.
    + apply quiet_bind; [apply quiet_lift | intros len].
      apply quiet_bind; [apply quiet_logger | intros _].
      apply quiet_bind; [apply quiet_lift | intros records].
      apply quiet_bind; [apply mapRecords_quiet | intros entities].
      quiet_steps.
Qed.

Lemma whileHasNext_no_mutations (this : DatadogServiceEntityProvider) (api : Api)
    (fuel n : nat) (offset : N) (acc : list Entity) (loop : IO (list Entity)) :
  whileHasNext this api fuel n offset acc = Some loop -> mutations (trace loop) = [].
Proof.
  revert n offset acc loop.
  induction fuel as [| fuel IH]; intros n offset acc loop;
    cbn [whileHasNext]; cbn zeta; [discriminate |].
  destruct (loopBody_trace this api n offset acc) as (t & Ht & Hlocal).
  assert (Hm : mutations (trace (loopBody this api n offset acc)) = [])
    by (rewrite Ht; simpl; apply local_no_mutations, Hlocal).
  destruct (result (loopBody this api n offset acc)) as [[[| offset'] entities] | e].
  - intros [= ?]; subst loop. exact Hm.
  - destruct (whileHasNext this api fuel (S n) offset' entities) as [rest |] eqn:Hrest;
      [| discriminate].
    intros [= ?]; subst loop.
    change (mutations (trace (loopBody this api n offset acc) ++ trace rest) = []).
    rewrite mutations_app, Hm, (IH _ _ _ _ Hrest). reflexivity.
  - intros [= ?]; subst loop. exact Hm.
Qed.

Lemma discoverServices_no_mutations (this : DatadogServiceEntityProvider) (api : Api)
    (fuel : nat) (discovery : IO (list Entity)) :
  discoverServices this api fuel = Some discovery -> mutations (trace discovery) = [].
Proof.
  unfold discoverServices.
  destruct (whileHasNext this api fuel 0 0%N []) as [loop |] eqn:Hloop; [| discriminate].
  intros [= <-]. rewrite trace_tryCatch.
  pose proof (whileHasNext_no_mutations _ _ _ _ _ _ _ Hloop) as Hm.
  destruct (result loop); [exact Hm |].
  rewrite mutations_app, Hm. reflexivity.
Qed.

(** ** run *)

(** C4: [run()] on a provider that was never connected throws at once: the
    trace is empty, so no request was made and no mutation submitted,
    whatever the API would have answered. *)
Theorem C4_run_before_connect (cfg : DatadogServiceEntityProviderConfig)
    (api : Api) (fuel : nat) :
  run (newProvider cfg) api fuel = Some (mkIO [] (Throw (Error "Not initialized")))
  /\ forall io, run (newProvider cfg) api fuel = Some io ->
       (exists error, result io = Throw error)
       /\ fetches (trace io) = [] /\ mutations (trace io) = [].
Proof.
  split; [reflexivity |].
  intros io [= <-]. repeat split. eauto.
Qed.

Lemma run_connected (this : DatadogServiceEntityProvider)
    (conn : EntityProviderConnection) (api : Api) (fuel : nat)
    (discovery : IO (list Entity)) :
  connection this = Some conn ->
  discoverServices this api fuel = Some discovery ->
  run this api fuel =
    Some (_ ← logger Info "Discovering entities from Datadog Software Catalog";
          tryCatch
            (entities ← discovery;
             _ ← emit (EvApplyMutation
                         (mkMutation "full"
                            (List.map (fun entity => mkDeferredEntity entity getProviderName)
                               entities)));
             _ ← lift (applyMutation conn
                         (mkMutation "full"
                            (List.map (fun entity => mkDeferredEntity entity getProviderName)
                               entities)));
             logger Info ("Discovered " +:+ Str.of_N (N.of_nat (length entities))
                            +:+ " entities from Datadog Software Catalog"))
            (fun error =>
               _ ← logger LogError
                     "Failed to discover entities from Datadog Software Catalog";
               throw error)).
Proof. intros Hc Hd. unfold run. rewrite Hc, Hd. reflexivity. Qed.

Lemma submit_mutation (conn : EntityProviderConnection) (m : Mutation) (msg : string) :
  mutations (trace (_ ← emit (EvApplyMutation m);
                    _ ← lift (applyMutation conn m);
                    logger Info msg)) = [m]
  /\ result (_ ← emit (EvApplyMutation m);
             _ ← lift (applyMutation conn m);
             logger Info msg) = applyMutation conn m.
Proof.
  rewrite !trace_bind, !result_bind. cbn [emit lift logger result trace].
  destruct (applyMutation conn m) as [[] |]; split; reflexivity.
Qed.

(** C3: when the fetch-and-map phase of a run on a connected provider
    completes, the run completes; if the phase succeeded, the run submitted
    exactly one mutation, of type "full", holding every discovered entity
    with the provider's name as location key; if the phase failed, the run
    throws the same error and submitted no mutation. *)
Theorem C3_run_submits_one_full_mutation (this : DatadogServiceEntityProvider)
    (conn : EntityProviderConnection) (api : Api) (fuel : nat)
    (discovery : IO (list Entity)) :
  connection this = Some conn ->
  discoverServices this api fuel = Some discovery ->
  exists io,
    run this api fuel = Some io
    /\ (forall entities, result discovery = Ok entities ->
        mutations (trace io) =
          [mkMutation "full"
             (List.map (fun entity => mkDeferredEntity entity getProviderName) entities)]
        /\ result io =
             applyMutation conn
               (mkMutation "full"
                  (List.map (fun entity => mkDeferredEntity entity getProviderName)
                     entities)))
    /\ (forall error, result discovery = Throw error ->
        mutations (trace io) = [] /\ result io = Throw error)
    /\ (length (mutations (trace io)) = 1 <-> exists entities, result discovery = Ok entities).
Proof.
  intros Hc Hd.
  pose proof (discoverServices_no_mutations this api fuel discovery Hd) as Hquiet.
  eexists. split; [exact (run_connected this conn api fuel discovery Hc Hd) |].
  rewrite trace_bind, result_bind. cbn [logger emit result trace].
  rewrite trace_tryCatch, result_tryCatch, result_bind, trace_bind.
  destruct (result discovery) as [entities | error].
  - set (m := mkMutation "full"
                (List.map (fun entity => mkDeferredEntity entity getProviderName) entities)).
    destruct (submit_mutation conn m
                ("Discovered " +:+ Str.of_N (N.of_nat (length entities))
                   +:+ " entities from Datadog Software Catalog")) as [Ht Hr].
    rewrite Hr.
    assert (Hone :
      mutations
        ([EvLog Info "Discovering entities from Datadog Software Catalog"] ++
         match applyMutation conn m with
         | Ok _ =>
             trace discovery ++
             trace (_ ← emit (EvApplyMutation m);
                    _ ← lift (applyMutation conn m);
                    logger Info ("Discovered " +:+ Str.of_N (N.of_nat (length entities))
                                   +:+ " entities from Datadog Software Catalog"))
         | Throw e =>
             (trace discovery ++
              trace (_ ← emit (EvApplyMutation m);
                     _ ← lift (applyMutation conn m);
                     logger Info ("Discovered " +:+ Str.of_N (N.of_nat (length entities))
                                    +:+ " entities from Datadog Software Catalog"))) ++
             trace (_ ← logger LogError
                          "Failed to discover entities from Datadog Software Catalog";
                    throw e : IO unit)
         end) = [m]).
    { destruct (applyMutation conn m); rewrite !mutations_app, Hquiet, Ht; reflexivity. }
    split; [| split].
    + intros ? [= <-]. fold m. split; [exact Hone |].
      destruct (applyMutation conn m); reflexivity.
    + intros ? [=].
    + split; [eauto |]. intros _. rewrite Hone. reflexivity.
  - cbn [logger emit throw result trace].
    rewrite !mutations_app, Hquiet.
    split; [| split].
    + intros ? [=].
    + intros ? [= <-]. split; reflexivity.
    + split; [discriminate | intros [? [=]]].
Qed.

Lemma C3_run_submits_one_full_mutation_witness :
  exists io,
    run (connect sampleProvider acceptAll) twoPageApi 3 = Some io
    /\ mutations (trace io) =
         [mkMutation "full"
            (List.map (fun entity => mkDeferredEntity entity "DatadogServiceEntityProvider")
               sampleEntities)]
    /\ result io = Ok tt.
Proof.
  destruct (C3_run_submits_one_full_mutation
              (connect sampleProvider acceptAll) acceptAll twoPageApi 3 sampleDiscovery)
    as (io & Hrun & Hok & _); [reflexivity | vm_compute; reflexivity |].
  exists io. split; [exact Hrun |].
  apply (Hok sampleEntities). vm_compute; reflexivity.
Defined.

(** ** The pagination loop *)

Lemma whileHasNext_S (this : DatadogServiceEntityProvider) (api : Api)
    (fuel n : nat) (offset : N) (acc : list Entity) :
  whileHasNext this api (S fuel) n offset acc =
    match result (loopBody this api n offset acc) with
    | Throw e => Some (mkIO (trace (loopBody this api n offset acc)) (Throw e))
    | Ok (Exit, entities) =>
        Some (mkIO (trace (loopBody this api n offset acc)) (Ok entities))
    | Ok (Again offset', entities) =>
        match whileHasNext this api fuel (S n) offset' entities with
        | Some rest =>
            Some (mkIO (trace (loopBody this api n offset acc) ++ trace rest) (result rest))
        | None => None
        end
    end.
Proof. reflexivity. Qed.

(** More fuel does not change a loop that ended. *)
Lemma whileHasNext_more_fuel (this : DatadogServiceEntityProvider) (api : Api)
    (fuel n : nat) (offset : N) (acc : list Entity) (loop : IO (list Entity)) :
  whileHasNext this api fuel n offset acc = Some loop ->
  whileHasNext this api (S fuel) n offset acc = Some loop.
Proof.
  revert n offset acc loop.
  induction fuel as [| fuel IH]; intros n offset acc loop; [discriminate |].
  rewrite (whileHasNext_S this api (S fuel) n), (whileHasNext_S this api fuel n).
  destruct (result (loopBody this api n offset acc)) as [[[| offset'] entities] | e];
    try (intros H; exact H).
  destruct (whileHasNext this api fuel (S n) offset' entities) as [rest |] eqn:Hrest;
    [| discriminate].
  rewrite (IH _ _ _ _ Hrest). intros H; exact H.
Qed.

(** The loop ends within [fuel] turns when one of the first [fuel] answers
    carries no next offset (or fails). *)
Lemma whileHasNext_terminates (this : DatadogServiceEntityProvider) (api : Api)
    (fuel k n : nat) (offset : N) (acc : list Entity) :
  k < fuel ->
  (forall offset' acc' o e,
     result (loopBody this api (n + k) offset' acc') <> Ok (Again o, e)) ->
  exists loop, whileHasNext this api fuel n offset acc = Some loop.
Proof.
  revert k n offset acc.
  induction fuel as [| fuel IH]; intros k n offset acc Hk Hstop; [lia |].
  rewrite whileHasNext_S.
  destruct (result (loopBody this api n offset acc)) as [[[| offset'] entities] | e] eqn:Hturn;
    eauto.
  destruct k as [| k].
  - exfalso. apply (Hstop offset acc offset' entities).
    replace (n + 0) with n by lia. exact Hturn.
  - destruct (IH k (S n) offset' entities) as [rest Hrest]; [lia | |].
    + intros o' a' o e. replace (S n + k) with (n + S k) by lia. apply Hstop.
    + rewrite Hrest. eauto.
Qed.

Lemma loopBody_no_data (this : DatadogServiceEntityProvider) (api : Api)
    (n : nat) (offset : N) (acc : list Entity) (response : HttpResponse) (data : JSValue) :
  api n (pageUrl this offset) = Resolved response ->
  resp_ok response = true ->
  resp_json response = Ok data ->
  truthy (field data "data") = false ->
  loopBody this api n offset acc =
    mkIO [ EvFetch (pageUrl this offset) (headers this);
           EvLog Warn "No entity data returned from Datadog Software Catalog API" ]
         (Ok (Exit, acc)).
Proof.
  intros Hapi Hok Hjson Hdata. unfold loopBody. cbn zeta.
  rewrite Hapi, Hok, Hjson. cbn [negb].
  assert (Hce : (if truthy data then getProp data "data" else Ok JUndefined)
                = Ok (field data "data")).
  { destruct (truthy data) eqn:Ht; [apply getProp_truthy_field, Ht |].
    destruct data; try discriminate Ht; reflexivity. }
  assert (Hcond : negb (truthy data) || negb (truthy (field data "data")) = true)
    by (rewrite Hdata; apply orb_true_r).
  unfold mbind, IO_bind. cbn [lift emit result trace].
  rewrite Hce. cbn [lift emit result trace]. rewrite Hcond. reflexivity.
Qed.

(** C8: a page answered with a body that has no [data] (no usable value
    under that name) ends the loop at once: a warning is logged, nothing is
    thrown, and the loop returns exactly the entities gathered from the
    earlier pages. *)
Theorem C8_no_data_ends_pagination (this : DatadogServiceEntityProvider) (api : Api)
    (fuel n : nat) (offset : N) (acc : list Entity)
    (response : HttpResponse) (data : JSValue) :
  api n (pageUrl this offset) = Resolved response ->
  resp_ok response = true ->
  resp_json response = Ok data ->
  truthy (field data "data") = false ->
  whileHasNext this api (S fuel) n offset acc =
    Some (mkIO [ EvFetch (pageUrl this offset) (headers this);
                 EvLog Warn "No entity data returned from Datadog Software Catalog API" ]
               (Ok acc)).
Proof.
  intros Hapi Hok Hjson Hdata. rewrite whileHasNext_S.
  rewrite (loopBody_no_data this api n offset acc response data Hapi Hok Hjson Hdata).
  reflexivity.
Qed.

Lemma C8_no_data_ends_pagination_witness :
  whileHasNext (connect sampleProvider acceptAll) twoPageApi 1 1 250 sampleEntities =
    Some (mkIO [ EvFetch (pageUrl (connect sampleProvider acceptAll) 250)
                   (headers (connect sampleProvider acceptAll));
                 EvLog Warn "No entity data returned from Datadog Software Catalog API" ]
               (Ok sampleEntities)).
Proof.
  apply (C8_no_data_ends_pagination (connect sampleProvider acceptAll) twoPageApi 0 1 250
           sampleEntities (mkResponse true 200 "OK" (Ok "") (Ok (JObj [("meta", JObj [])])))
           (JObj [("meta", JObj [])])); reflexivity.
Defined.

(** ** Records that cannot be mapped *)

(** A record without a usable attribute block or name is skipped. *)
Lemma createServiceEntity_skips (this : DatadogServiceEntityProvider) (service : JSValue) :
  service <> JNull -> service <> JUndefined ->
  truthy (field (field service "attributes") "name") = false ->
  createServiceEntity this service =
    mkIO [EvLog Debug "Skipping service without name or attributes"] (Ok None).
Proof.
  intros Hnull Hundef Hname. unfold createServiceEntity.
  assert (Ha : getProp service "attributes" = Ok (field service "attributes"))
    by (destruct service; try reflexivity; congruence).
  assert (Hn : (if truthy (field service "attributes")
                then getProp (field service "attributes") "name" else Ok JUndefined)
               = Ok (field (field service "attributes") "name")).
  { destruct (truthy (field service "attributes")) eqn:Ht;
      [apply getProp_truthy_field, Ht |].
    destruct (field service "attributes"); try discriminate Ht; reflexivity. }
  apply IO_ext.
  - rewrite trace_bind. cbn [lift result trace]. rewrite Ha. cbn beta iota.
    rewrite trace_bind. cbn [lift result trace]. rewrite Hn. cbn beta iota.
    rewrite Hname, orb_true_r. reflexivity.
  - rewrite result_bind. cbn [lift result]. rewrite Ha. cbn beta iota.
    rewrite result_bind. cbn [lift result]. rewrite Hn. cbn beta iota.
    rewrite Hname, orb_true_r. reflexivity.
Qed.

(** Whatever goes wrong while mapping a record that is not [null], the
    loop body recovers: it never throws. *)
Lemma mapRecord_absorbs (this : DatadogServiceEntityProvider) (catalogEntity : JSValue) :
  catalogEntity <> JNull -> catalogEntity <> JUndefined ->
  exists e, result (mapRecord this catalogEntity) = Ok e.
Proof.
  intros Hnull Hundef. unfold mapRecord. rewrite result_tryCatch.
  destruct (result (createServiceEntity this catalogEntity)) as [e | error]; [eauto |].
  exists None.
  assert (Ha : getProp catalogEntity "attributes" = Ok (field catalogEntity "attributes"))
    by (destruct catalogEntity; try reflexivity; congruence).
  rewrite result_bind. cbn [lift result]. rewrite Ha.
  rewrite result_bind. cbn [lift result].
  destruct (field catalogEntity "attributes"); reflexivity.
Qed.

(** C9: a [null] record is not absorbed.  Mapping it throws, and the
    handler that should log the warning reads [catalogEntity.attributes]
    to build its message and throws again; that error leaves the loop, the
    run fails and nothing is submitted, although the page also holds a
    regular record. *)
Theorem C9_null_record_aborts_run :
  result (createServiceEntity sampleProvider JNull)
    = Throw (TypeError "Cannot read properties of null (reading 'attributes')")
  /\ mapRecord sampleProvider JNull
     = mkIO [] (Throw (TypeError "Cannot read properties of null (reading 'attributes')"))
  /\ exists io,
       run (connect sampleProvider acceptAll) nullRecordApi 1 = Some io
       /\ result io
          = Throw (TypeError "Cannot read properties of null (reading 'attributes')")
       /\ mutations (trace io) = [].
Proof.
  split; [reflexivity |]. split; [reflexivity |].
  eexists. split; [vm_compute; reflexivity |]. split; reflexivity.
Qed.

(** ** The next-page link *)

Lemma strip_prefix_app (p s rest : string) :
  Str.strip_prefix p s = Some rest -> s = p +:+ rest.
Proof.
  revert s. induction p as [| a p IH]; intros s; simpl.
  - intros [= <-]. reflexivity.
  - destruct s as [| b s]; [discriminate |].
    destruct (Ascii.eqb a b) eqn:Hab; [| discriminate].
    apply Ascii.eqb_eq in Hab as <-. intros H.
    change (String a s = String a (p +:+ rest)). f_equal. apply IH, H.
Qed.


Lemma strip_prefix_prefix (p s rest : string) :
  Str.strip_prefix p s = Some rest -> String.prefix p s = true.
Proof.
  revert s. induction p as [| a p IH]; intros s; simpl.
  - destruct s; reflexivity.
  - destruct s as [| b s]; [discriminate |].
    destruct (Ascii.eqb a b) eqn:Hab; [| discriminate].
    apply Ascii.eqb_eq in Hab as <-. intros H. cbn [String.prefix].
    destruct (ascii_dec a a) as [_ | Hne]; [apply (IH s H) | congruence].
Qed.

Lemma take_digits_split (s : string) :
  all_digits (Str.take_digits s) = true
  /\ exists post, s = Str.take_digits s +:+ post.
Proof.
  induction s as [| c s [IHd [post IHp]]]; simpl.
  - split; [reflexivity | exists EmptyString; reflexivity].
  - destruct (Str.is_digit c) eqn:Hc; simpl.
    + rewrite Hc, IHd. split; [reflexivity |].
      exists post. change (String c s = String c (Str.take_digits s +:+ post)).
      f_equal. exact IHp.
    + split; [reflexivity | eauto].
Qed.

(** What the regular expression captures: the digits that follow an
    occurrence of the marker. *)
Lemma matchOffset_sound (next digits : string) :
  matchOffset next = Some digits ->
  nonEmpty digits = true /\ all_digits digits = true
  /\ exists pre post, next = pre +:+ "page%5Boffset%5D=" +:+ digits +:+ post.
Proof.
  induction next as [| c next IH].
  - simpl. discriminate.
  - cbn [matchOffset].
    destruct (Str.strip_prefix "page%5Boffset%5D=" (String c next)) as [rest |] eqn:Hp.
    + destruct (nonEmpty (Str.take_digits rest)) eqn:Hne.
      * intros [= <-]. split; [exact Hne |].
        destruct (take_digits_split rest) as [Hd [post Hpost]].
        split; [exact Hd |].
        exists EmptyString, post. cbn [append].
        rewrite (strip_prefix_app _ _ _ Hp). now rewrite <- Hpost.
      * intros H. destruct (IH H) as (Hn & Hd & pre & post & ->).
        repeat split; auto. exists (String c pre), post. reflexivity.
    + intros H. destruct (IH H) as (Hn & Hd & pre & post & ->).
      repeat split; auto. exists (String c pre), post. reflexivity.
Qed.

Lemma matchOffset_includes (next digits : string) :
  matchOffset next = Some digits -> Str.includes next "page%5Boffset%5D=" = true.
Proof.
  induction next as [| c next IH].
  - simpl. discriminate.
  - cbn [matchOffset Str.includes].
    destruct (Str.strip_prefix "page%5Boffset%5D=" (String c next)) as [rest |] eqn:Hp.
    + intros _. now rewrite (strip_prefix_prefix _ _ _ Hp).
    + intros H. rewrite (IH H). apply orb_true_r.
Qed.



Lemma field_truthy_parent (v : JSValue) (k : string) :
  truthy (field v k) = true -> truthy v = true.
Proof.
  destruct v as [| | b | z | s | elems | props]; try discriminate; try reflexivity.
  - unfold field; simpl. intros H. destruct s; [| reflexivity].
    destruct (String.eqb k "length"); discriminate H.
Qed.

Lemma nextOffset_refines (data : JSValue) :
  truthy data = true -> nextOffset data = Ok (nextOffsetSpec data).
Proof.
  intros Ht. unfold nextOffset, nextOffsetSpec.
  rewrite (getProp_truthy_field data "links" Ht). cbn [mbind Result_bind].
  destruct (truthy (field data "links")) eqn:Hl; cbn [negb].
  - rewrite (getProp_truthy_field _ "next" Hl). cbn [mbind Result_bind].
    destruct (field (field data "links") "next") as [| | | | next | |]; try reflexivity.
    destruct (matchOffset next) as [digits |] eqn:Hm; cbn [option_map].
    + rewrite (matchOffset_includes _ _ Hm).
      destruct (matchOffset_sound _ _ Hm) as [Hn _]. rewrite Hn. reflexivity.
    + destruct (Str.includes next "page%5Boffset%5D="); reflexivity.
  - destruct (field data "links") as [| | b | z | s | |]; try discriminate Hl;
      reflexivity.
Qed.

(** The outcome of a turn whose request was answered with a page of
    records. *)
Lemma loopBody_page (this : DatadogServiceEntityProvider) (api : Api)
    (n : nat) (offset : N) (acc : list Entity) (response : HttpResponse) (data : JSValue) :
  api n (pageUrl this offset) = Resolved response ->
  resp_ok response = true ->
  resp_json response = Ok data ->
  truthy (field data "data") = true ->
  result (loopBody this api n offset acc) =
    match iterate (field data "data") with
    | Throw e => Throw e
    | Ok records =>
        match result (mapRecords this records acc) with
        | Throw e => Throw e
        | Ok entities =>
            Ok (match nextOffsetSpec data with
                | Some offset' => Again offset'
                | None => Exit
                end, entities)
        end
    end.
Proof.
  intros Hapi Hok Hjson Hdata.
  pose proof (field_truthy_parent data "data" Hdata) as Ht.
  unfold loopBody. cbn zeta.
  rewrite result_bind. cbn [emit result]. rewrite Hapi, Hok. cbn [negb].
  rewrite result_bind. cbn [lift result]. rewrite Hjson. cbn beta iota.
  rewrite result_bind. cbn [lift result].
  rewrite Ht, (getProp_truthy_field data "data" Ht). cbn beta iota.
  rewrite Hdata. cbn [negb orb].
  rewrite result_bind. cbn [lift result].
  rewrite (getProp_truthy_field _ "length" Hdata). cbn beta iota.
  rewrite result_bind. cbn [logger emit result].
  rewrite result_bind. cbn [lift result].
  destruct (iterate (field data "data")) as [records |]; [| reflexivity].
  rewrite result_bind.
  destruct (result (mapRecords this records acc)) as [entities |]; [| reflexivity].
  rewrite result_bind. cbn [lift result].
  rewrite (nextOffset_refines data Ht).
  destruct (nextOffsetSpec data); reflexivity.
Qed.



(** The discovery phase ends within [fuel] turns when one of the first
    [fuel] answers carries no next offset (or fails). *)
Lemma discoverServices_terminates (this : DatadogServiceEntityProvider) (api : Api)
    (fuel k : nat) :
  k < fuel ->
  (forall offset acc o e, result (loopBody this api k offset acc) <> Ok (Again o, e)) ->
  exists discovery, discoverServices this api fuel = Some discovery.
Proof.
  intros Hk Hstop. unfold discoverServices.
  destruct (whileHasNext_terminates this api fuel k 0 0%N [] Hk Hstop) as [loop ->].
  eauto.
Qed.

(** ** More on relationship translation *)

Lemma split_not_nil (sep : ascii) (s : string) : Str.split sep s <> [].
Proof.
  induction s as [| c s IH]; simpl; [discriminate |].
  destruct (Ascii.eqb c sep); [discriminate |].
  destruct (Str.split sep s); [contradiction | discriminate].
Qed.

Lemma split_lacks (sep : ascii) (s : string) :
  lacks sep s = true -> Str.split sep s = [s].
Proof.
  induction s as [| c s IH]; simpl; [reflexivity |].
  intros [Hc Hs]%andb_prop. apply negb_true_iff in Hc. rewrite Hc, (IH Hs). reflexivity.
Qed.

Lemma split_segments_lack (sep : ascii) (s : string) :
  Forall (fun p => lacks sep p = true) (Str.split sep s).
Proof.
  induction s as [| c s IH]; simpl; [repeat constructor |].
  destruct (Ascii.eqb c sep) eqn:Hc; [constructor; [reflexivity | exact IH] |].
  destruct (Str.split sep s) as [| p ps]; [repeat constructor; simpl; now rewrite Hc |].
  inversion IH as [| ? ? Hp Hps]; subst.
  constructor; [simpl; now rewrite Hc, Hp | exact Hps].
Qed.

(** [(a + sep + b).split(sep)] is [a.split(sep)] followed by [b.split(sep)]. *)
Lemma split_app (sep : ascii) (a b : string) :
  Str.split sep (a +:+ String sep b) = Str.split sep a ++ Str.split sep b.
Proof.
  induction a as [| c a IH]; simpl.
  - now rewrite Ascii.eqb_refl.
  - destruct (Ascii.eqb c sep); [now rewrite IH |].
    rewrite IH. destruct (Str.split sep a) as [| p ps] eqn:Hs; [| reflexivity].
    now apply split_not_nil in Hs.
Qed.

Lemma split_colon (a b : string) :
  Str.split ":" (a +:+ ":" +:+ b) = Str.split ":" a ++ Str.split ":" b.
Proof. exact (split_app ":" a b). Qed.

Lemma findIndex_app_hit {A : Type} (p : A -> bool) (l : list A) (x : A) (rest : list A) :
  Forall (fun y => p y = false) l -> p x = true ->
  findIndex p (l ++ x :: rest) = Z.of_nat (length l).
Proof.
  intros Hl Hx. induction Hl as [| y l Hy _ IH]; cbn [findIndex app].
  - now rewrite Hx.
  - rewrite Hy, IH. cbn [length]. rewrite Nat2Z.inj_succ.
    destruct (Z.eqb_spec (Z.of_nat (length l)) (-1)); lia.
Qed.

Lemma find_app_hit {A : Type} (p : A -> bool) (l : list A) (x : A) (rest : list A) :
  Forall (fun y => p y = false) l -> p x = true ->
  List.find p (l ++ x :: rest) = Some x.
Proof.
  intros Hl Hx. induction Hl as [| y l Hy _ IH]; simpl.
  - now rewrite Hx.
  - now rewrite Hy.
Qed.

Lemma at_index_app {A : Type} (l rest : list A) (k : nat) :
  at_index (l ++ rest) (Z.of_nat (length l) + Z.of_nat k) = rest !! k.
Proof.
  unfold at_index.
  destruct (Z.ltb_spec (Z.of_nat (length l) + Z.of_nat k) 0); [lia |].
  replace (Z.to_nat (Z.of_nat (length l) + Z.of_nat k)) with (length l + k) by lia.
  rewrite lookup_app_r by lia. f_equal. lia.
Qed.

Lemma parseDdEntityRef_three_segments (src relType kind namespace name : string) :
  noMarker (Str.split ":" src) ->
  Str.startsWith relType "RelationType" = true -> lacks ":" relType = true ->
  lacks ":" kind = true -> lacks ":" namespace = true -> lacks ":" name = true ->
  nonEmpty kind = true -> nonEmpty namespace = true -> nonEmpty name = true ->
  Str.split ":" (src +:+ ":" +:+ relType +:+ ":" +:+ kind +:+ ":" +:+ namespace
                   +:+ ":" +:+ name)
    = Str.split ":" src ++ [relType; kind; namespace; name]
  /\ parseDdEntityRef (src +:+ ":" +:+ relType +:+ ":" +:+ kind +:+ ":" +:+ namespace
                         +:+ ":" +:+ name)
     = Some (mkEntityRef kind namespace name).
Proof.
  intros Hsrc Hrel Lrel Lk Lns Ln Nk Nns Nn.
  assert (Hsplit :
    Str.split ":" (src +:+ ":" +:+ relType +:+ ":" +:+ kind +:+ ":" +:+ namespace
                     +:+ ":" +:+ name)
      = Str.split ":" src ++ [relType; kind; namespace; name]).
  { rewrite !split_colon, (split_lacks _ _ Lrel), (split_lacks _ _ Lk),
      (split_lacks _ _ Lns), (split_lacks _ _ Ln). reflexivity. }
  split; [exact Hsplit |].
  unfold parseDdEntityRef. rewrite Hsplit. cbn zeta.
  rewrite (findIndex_app_hit _ _ relType _ Hsrc Hrel).
  assert (Hpos : 0 < length (Str.split ":" src)).
  { pose proof (split_not_nil ":" src). destruct (Str.split ":" src); simpl; [congruence | lia]. }
  rewrite length_app. cbn [length].
  destruct (Z.eqb_spec (Z.of_nat (length (Str.split ":" src))) (-1)); [lia |].
  destruct (Z.eqb_spec (Z.of_nat (length (Str.split ":" src))) 0); [lia |].
  destruct (Z.eqb_spec (Z.of_nat (length (Str.split ":" src)))
              (Z.of_nat (length (Str.split ":" src) + 4) - 1)); [lia |].
  cbn [orb].
  rewrite (at_index_app _ _ 1), (at_index_app _ _ 2), (at_index_app _ _ 3).
  cbn. rewrite Nk, Nns, Nn. reflexivity.
Qed.

(** X1: a record (not [null]) without a relationship block, or whose block
    has no related-entities list, translates to the empty sequence. *)
Theorem X1_extractRelationships_no_block (service : JSValue) :
  service <> JNull -> service <> JUndefined ->
  truthy (field (field service "relationships") "relatedEntities") = false ->
  extractRelationships service = Ok [].
Proof.
  intros Hnull Hundef Hre. unfold extractRelationships.
  assert (Hr : getProp service "relationships" = Ok (field service "relationships"))
    by (destruct service; try reflexivity; congruence).
  rewrite Hr. cbn [mbind Result_bind].
  destruct (truthy (field service "relationships")) eqn:Ht; [| reflexivity].
  cbn [negb]. rewrite (getProp_truthy_field _ "relatedEntities" Ht).
  cbn [mbind Result_bind]. rewrite Hre. reflexivity.
Qed.

Lemma X1_extractRelationships_no_block_witness :
  extractRelationships (JObj [("attributes", JObj []); ("relationships", JObj [])]) = Ok [].
Proof.
  apply X1_extractRelationships_no_block; [discriminate | discriminate | reflexivity].
Defined.

(** X2: a related-entities object whose [data] is missing (or is anything
    but an array or a string) makes the translation throw a [TypeError]: the
    loop over it has nothing to iterate. *)
Theorem X2_extractRelationships_without_data (service : JSValue) :
  truthy (field (field service "relationships") "relatedEntities") = true ->
  (forall elems,
     field (field (field service "relationships") "relatedEntities") "data" <> JArr elems) ->
  (forall s,
     field (field (field service "relationships") "relatedEntities") "data" <> JStr s) ->
  exists msg, extractRelationships service = Throw (TypeError msg).
Proof.
  intros Hre Harr Hstr.
  pose proof (field_truthy_parent _ _ Hre) as Hrel.
  pose proof (field_truthy_parent _ _ Hrel) as Hsvc.
  unfold extractRelationships.
  rewrite (getProp_truthy_field _ "relationships" Hsvc). cbn [mbind Result_bind].
  rewrite Hrel. cbn [negb].
  rewrite (getProp_truthy_field _ "relatedEntities" Hrel). cbn [mbind Result_bind].
  rewrite Hre. cbn [negb].
  rewrite (getProp_truthy_field _ "data" Hre). cbn [mbind Result_bind].
  destruct (field (field (field service "relationships") "relatedEntities") "data")
    as [| | b | z | s | elems | props]; cbn [iterate mbind Result_bind]; eauto.
  - now destruct (Hstr s).
  - now destruct (Harr elems).
Qed.

Lemma X2_extractRelationships_without_data_witness :
  exists msg,
    extractRelationships (namedRecordWithRelationships (JObj [("meta", JNull)]))
      = Throw (TypeError msg).
Proof.
  apply X2_extractRelationships_without_data; [reflexivity | discriminate | discriminate].
Defined.

(** ** More on createServiceEntity *)

Lemma createServiceEntity_result (this : DatadogServiceEntityProvider) (service : JSValue) :
  result (createServiceEntity this service) = mappingResult this service.
Proof.
  unfold createServiceEntity, mappingResult.
  rewrite result_bind. cbn [lift result].
  destruct (getProp service "attributes") as [attributes |]; [| reflexivity].
  cbn [mbind Result_bind]. cbn beta iota.
  rewrite result_bind. cbn [lift result].
  destruct (truthy attributes) eqn:Ht; [| reflexivity].
  rewrite (getProp_truthy_field _ "name" Ht). cbn beta iota. cbn [negb orb].
  destruct (truthy (field attributes "name")) eqn:Hn; [| reflexivity].
  cbn [negb]. rewrite result_bind. cbn [lift result].
  destruct (field attributes "name") as [| | | | rawName | |]; try reflexivity.
  cbn [callToLowerCase]. cbn beta iota. rewrite result_bind. cbn [lift result].
  destruct (resolveOwner attributes) as [owner |]; [| reflexivity].
  cbn [mbind Result_bind]. cbn beta iota. rewrite result_bind. cbn [lift result].
  destruct (selectPrimaryRepo attributes) as [primaryRepo |]; [| reflexivity].
  cbn [mbind Result_bind]. cbn beta iota. rewrite result_bind. cbn [lift result].
  destruct (extractRelationships service) as [relationships |]; [| reflexivity].
  cbn [mbind Result_bind]. cbn beta iota. rewrite result_bind. cbn [emit result].
  rewrite result_bind. cbn [lift result].
  rewrite (getProp_truthy_field _ "kind" Ht). cbn beta iota.
  rewrite result_bind. cbn [lift result].
  rewrite (getProp_truthy_field _ "description" Ht). cbn beta iota.
  rewrite result_bind. cbn [lift result].
  destruct (buildTags attributes) as [tags |]; [| reflexivity].
  cbn [mbind Result_bind]. cbn beta iota. rewrite result_bind. cbn [lift result].
  rewrite (getProp_truthy_field _ "lifecycle" Ht). cbn beta iota.
  rewrite result_bind. cbn [lift result].
  change (addRepository primaryRepo _)
    with (addRepository primaryRepo (entityLiteral this attributes rawName owner tags)).
  destruct (addRepository primaryRepo (entityLiteral this attributes rawName owner tags))
    as [base |]; [| reflexivity].
  cbn [mbind Result_bind]. cbn beta iota. rewrite result_bind. cbn [lift result].
  rewrite (getProp_truthy_field _ "team" Ht). cbn beta iota.
  rewrite result_bind. cbn [lift result].
  rewrite (getProp_truthy_field _ "application" Ht). reflexivity.
Qed.

Lemma createServiceEntity_inv (this : DatadogServiceEntityProvider)
    (service : JSValue) (e : Entity) :
  result (createServiceEntity this service) = Ok (Some e) ->
  exists rawName owner primaryRepo relationships tags base,
    truthy (field service "attributes") = true
    /\ field (field service "attributes") "name" = JStr rawName
    /\ resolveOwner (field service "attributes") = Ok owner
    /\ selectPrimaryRepo (field service "attributes") = Ok primaryRepo
    /\ extractRelationships service = Ok relationships
    /\ buildTags (field service "attributes") = Ok tags
    /\ addRepository primaryRepo
         (entityLiteral this (field service "attributes") rawName owner tags) = Ok base
    /\ e = addAnnotation "datadoghq.com/application"
             (field (field service "attributes") "application")
             (addAnnotation "datadoghq.com/team"
                (field (field service "attributes") "team") base).
Proof.
  rewrite createServiceEntity_result. unfold mappingResult.
  destruct (getProp service "attributes") as [attributes |] eqn:Ha;
    cbn [mbind Result_bind]; [| discriminate].
  assert (Hf : field service "attributes" = attributes)
    by (unfold field; rewrite Ha; reflexivity).
  rewrite Hf.
  destruct (truthy attributes) eqn:Ht; [| discriminate].
  destruct (truthy (field attributes "name")) eqn:Hn; [| discriminate].
  cbn [negb orb].
  destruct (field attributes "name") as [| | | | rawName | |]; try discriminate.
  destruct (resolveOwner attributes) as [owner |]; cbn [mbind Result_bind]; [| discriminate].
  destruct (selectPrimaryRepo attributes) as [primaryRepo |];
    cbn [mbind Result_bind]; [| discriminate].
  destruct (extractRelationships service) as [relationships |];
    cbn [mbind Result_bind]; [| discriminate].
  destruct (buildTags attributes) as [tags |]; cbn [mbind Result_bind]; [| discriminate].
  destruct (addRepository primaryRepo _) as [base |] eqn:Hbase;
    cbn [mbind Result_bind]; [| discriminate].
  intros [= <-]. exists rawName, owner, primaryRepo, relationships, tags, base.
  repeat split; auto.
Qed.

(** X3: a record whose relationship block cannot be translated never
    becomes an entity, although the relations are not part of the entity:
    the mapping throws, and for a record that is not [null] the loop over
    the page recovers and drops it. *)
Theorem X3_untranslatable_relationships_drop_record
    (this : DatadogServiceEntityProvider) (service : JSValue) (error : Exn) :
  extractRelationships service = Throw error ->
  (forall e, result (createServiceEntity this service) <> Ok (Some e))
  /\ (service <> JNull -> service <> JUndefined ->
      result (mapRecord this service) = Ok None).
Proof.
  intros Hrel.
  assert (Hno : forall e, result (createServiceEntity this service) <> Ok (Some e)).
  { intros e He.
    destruct (createServiceEntity_inv this service e He)
      as (? & ? & ? & rels & ? & ? & _ & _ & _ & _ & Hok & _). congruence. }
  split; [exact Hno |]. intros Hnull Hundef.
  destruct (mapRecord_absorbs this service Hnull Hundef) as [o Ho].
  rewrite Ho. f_equal. destruct o as [e |]; [| reflexivity].
  exfalso. unfold mapRecord in Ho. rewrite result_tryCatch in Ho.
  destruct (result (createServiceEntity this service)) as [o' | err] eqn:Hc.
  - injection Ho as ->. exact (Hno e eq_refl).
  - rewrite !result_bind in Ho. cbn [lift logger emit result] in Ho.
    destruct (getProp service "attributes"); [| discriminate].
    destruct (getPropOpt _ "name"); discriminate.
Qed.

Lemma X3_untranslatable_relationships_drop_record_witness :
  result (mapRecord sampleProvider (namedRecordWithRelationships (JObj [("meta", JNull)])))
    = Ok None.
Proof.
  refine (proj2 (X3_untranslatable_relationships_drop_record sampleProvider
                   (namedRecordWithRelationships (JObj [("meta", JNull)]))
                   (TypeError "undefined is not iterable") _) _ _);
    [reflexivity | discriminate | discriminate].
Defined.

Lemma relationType_table (relTypePart backstageType : string) :
  ddToBackstageRelationType !! relTypePart = Some backstageType ->
  Str.startsWith relTypePart "RelationType" = true
  /\ lacks ":" relTypePart = true
  /\ In backstageType backstageRelationTypes.
Proof.
  unfold ddToBackstageRelationType. cbn [list_to_map foldr uncurry fst snd].
  intros H.
  repeat (apply lookup_insert_Some in H as [[<- <-] | [_ H]];
          [vm_compute; intuition congruence |]).
  rewrite lookup_empty in H. discriminate.
Qed.



(** X4: a descriptor whose identifier is [src:relType:kind:namespace:name],
    with a relation type of the table, no earlier segment beginning with
    "RelationType" and three non-empty colon-free target segments, is
    translated to the table's relation type and the reference
    [kind:namespace/name] with the kind lowercased. *)
Theorem X4_three_segment_target_is_translated
    (rel : JSValue) (src relType backstageType kind namespace name : string) :
  getProp rel "id"
    = Ok (JStr (src +:+ ":" +:+ relType +:+ ":" +:+ kind +:+ ":" +:+ namespace
                  +:+ ":" +:+ name)) ->
  noMarker (Str.split ":" src) ->
  ddToBackstageRelationType !! relType = Some backstageType ->
  lacks ":" kind = true -> lacks ":" namespace = true -> lacks ":" name = true ->
  nonEmpty kind = true -> nonEmpty namespace = true -> nonEmpty name = true ->
  translateRelationship rel
    = Ok (Some (mkRelation backstageType
                  (Str.toLowerCase kind +:+ ":" +:+ namespace +:+ "/" +:+ name))).
Proof.
  intros Hid Hsrc Htab Lk Lns Ln Nk Nns Nn.
  destruct (relationType_table _ _ Htab) as (Hrel & Lrel & _).
  destruct (parseDdEntityRef_three_segments src relType kind namespace name
              Hsrc Hrel Lrel Lk Lns Ln Nk Nns Nn) as [Hsplit Hparse].
  unfold translateRelationship. rewrite Hid. cbn [mbind Result_bind]. cbn zeta.
  rewrite Hsplit, (find_app_hit _ _ relType _ Hsrc Hrel), Htab, Hparse.
  reflexivity.
Qed.

Lemma X4_three_segment_target_is_translated_witness :
  translateRelationship
    (JObj [("id", JStr "service:default/web:RelationTypeOwnedBy:Group:default:payments")])
  = Ok (Some (mkRelation "ownedBy" "group:default/payments")).
Proof.
  apply (X4_three_segment_target_is_translated _ "service:default/web" "RelationTypeOwnedBy"
           "ownedBy" "Group" "default" "payments");
    try reflexivity.
  vm_compute. repeat constructor.
Defined.



Lemma at_index_In {A : Type} (l : list A) (i : Z) (x : A) :
  at_index l i = Some x -> x ∈ l.
Proof.
  unfold at_index. destruct (i <? 0)%Z; [discriminate |].
  intros H. eapply list_elem_of_lookup_2, H.
Qed.

Lemma parseDdEntityRef_Some (id : string) (target : EntityRef) :
  parseDdEntityRef id = Some target -> isEntityRefString (toEntityRef target).
Proof.
  unfold parseDdEntityRef. cbn zeta.
  destruct (_ || _); [discriminate |].
  destruct (at_index _ _) as [kind |] eqn:Hk; [| discriminate].
  destruct (at_index _ (_ + 2)) as [namespace |] eqn:Hns; [| discriminate].
  destruct (at_index _ (_ + 3)) as [name |] eqn:Hn; [| discriminate].
  destruct (nonEmpty kind) eqn:Nk; [| discriminate].
  destruct (nonEmpty namespace) eqn:Nns; [| discriminate].
  destruct (nonEmpty name) eqn:Nn; [| discriminate].
  intros [= <-]. exists kind, namespace, name.
  pose proof (split_segments_lack ":" id) as Hl. rewrite Forall_forall in Hl.
  repeat split; auto; apply Hl; eapply at_index_In; eassumption.
Qed.

Lemma translateRelationship_Some (rel : JSValue) (r : Relation) :
  translateRelationship rel = Ok (Some r) ->
  In (rel_type r) backstageRelationTypes /\ isEntityRefString (rel_target r).
Proof.
  unfold translateRelationship.
  destruct (getProp rel "id") as [id |]; cbn [mbind Result_bind]; [| discriminate].
  destruct id as [| | | | id | |]; try discriminate. cbn zeta.
  destruct (List.find _ _) as [relTypePart |]; [| discriminate].
  destruct (ddToBackstageRelationType !! relTypePart) as [backstageType |] eqn:Htab;
    [| discriminate].
  destruct (parseDdEntityRef id) as [target |] eqn:Hparse; [| discriminate].
  intros [= <-]. cbn [rel_type rel_target]. split.
  - apply (relationType_table _ _ Htab).
  - apply (parseDdEntityRef_Some _ _ Hparse).
Qed.

(** The accumulator of the loop only grows at its end. *)
Lemma translateAll_acc (rels : list JSValue) (acc : list Relation) :
  translateAll rels acc =
    match translateAll rels [] with
    | Ok new => Ok (acc ++ new)
    | Throw e => Throw e
    end.
Proof.
  revert acc. induction rels as [| rel rest IH]; intros acc; cbn [translateAll].
  - now rewrite app_nil_r.
  - destruct (translateRelationship rel) as [[r |] |]; cbn [mbind Result_bind];
      [| apply IH | reflexivity].
    rewrite (IH (acc ++ [r])), (IH ([] ++ [r])).
    destruct (translateAll rest []); [| reflexivity].
    now rewrite <- app_assoc.
Qed.

Lemma translateAll_output (rels : list JSValue) (relations : list Relation) :
  translateAll rels [] = Ok relations ->
  length relations <= length rels
  /\ Forall (fun r => In (rel_type r) backstageRelationTypes
                      /\ isEntityRefString (rel_target r)) relations.
Proof.
  revert relations. induction rels as [| rel rest IH]; intros relations.
  - intros [= <-]. split; [reflexivity | constructor].
  - cbn [translateAll].
    destruct (translateRelationship rel) as [[r |] |] eqn:Hrel; cbn [mbind Result_bind];
      [| | discriminate].
    + rewrite translateAll_acc.
      destruct (translateAll rest []) as [new |]; [| discriminate].
      intros [= <-]. destruct (IH new eq_refl) as [Hlen Hall].
      split; [simpl; lia |].
      constructor; [apply (translateRelationship_Some _ _ Hrel) | exact Hall].
    + intros H. destruct (IH _ H) as [Hlen Hall]. split; [simpl; lia | exact Hall].
Qed.

(** X6: whatever the record, a translation that succeeds yields at most one
    relation per descriptor; every relation has one of the six relation
    types of the table, and its target is a reference [kind:namespace/name]
    with three non-empty, colon-free components. *)
Theorem X6_extractRelationships_output (service : JSValue) (relations : list Relation) :
  extractRelationships service = Ok relations ->
  length relations
    <= length (elements (field (field (field service "relationships") "relatedEntities")
                           "data"))
  /\ Forall (fun r => In (rel_type r) backstageRelationTypes
                      /\ isEntityRefString (rel_target r)) relations.
Proof.
  unfold extractRelationships.
  destruct (getProp service "relationships") as [relationships |] eqn:Hr;
    cbn [mbind Result_bind]; [| discriminate].
  destruct (truthy relationships) eqn:Ht; cbn [negb];
    [| intros [= <-]; split; [apply Nat.le_0_l | constructor]].
  rewrite (getProp_truthy_field _ "relatedEntities" Ht). cbn [mbind Result_bind].
  destruct (truthy (field relationships "relatedEntities")) eqn:Hre; cbn [negb];
    [| intros [= <-]; split; [apply Nat.le_0_l | constructor]].
  rewrite (getProp_truthy_field _ "data" Hre). cbn [mbind Result_bind].
  assert (Hf : field service "relationships" = relationships)
    by (unfold field; rewrite Hr; reflexivity).
  rewrite Hf.
  destruct (field (field relationships "relatedEntities") "data")
    as [| | b | z | s | elems | props]; cbn [iterate mbind Result_bind]; try discriminate.
  - destruct s as [| c s]; cbn; [intros [= <-]; split; [apply Nat.le_0_l | constructor] | discriminate].
  - intros H. apply (translateAll_output _ _ H).
Qed.

Lemma X6_extractRelationships_output_witness :
  length [mkRelation "dependsOn" "service:default/music-player-service"] <= 1.
Proof.
  exact (proj1 (X6_extractRelationships_output (recordWithRelationship threeSegmentId)
                  [mkRelation "dependsOn" "service:default/music-player-service"] eq_refl)).
Defined.

(** X7: translating the descriptors of two lists one after the other gives
    the relations of the first followed by those of the second: the order of
    the descriptors is kept and nothing is merged or deduplicated; if either
    part throws, so does the whole. *)
Theorem X7_translateAll_app (rels1 rels2 : list JSValue) :
  translateAll (rels1 ++ rels2) [] =
    match translateAll rels1 [] with
    | Ok relations1 =>
        match translateAll rels2 [] with
        | Ok relations2 => Ok (relations1 ++ relations2)
        | Throw e => Throw e
        end
    | Throw e => Throw e
    end.
Proof.
  induction rels1 as [| rel rest IH]; cbn [app translateAll].
  - destruct (translateAll rels2 []); reflexivity.
  - destruct (translateRelationship rel) as [[r |] |]; cbn [mbind Result_bind];
      [| exact IH | reflexivity].
    rewrite (translateAll_acc (rest ++ rels2)), (translateAll_acc rest), IH.
    destruct (translateAll rest []); [| reflexivity].
    destruct (translateAll rels2 []); [| reflexivity].
    now rewrite app_assoc.
Qed.

(** ** Fields of a produced entity *)

(** X8: every produced entity has the fixed API version, and kind "System"
    when the raw kind is the string "system", "Component" in every other
    case (another kind, none, or a kind that is not a string). *)
Theorem X8_kind_mapping (this : DatadogServiceEntityProvider)
    (service : JSValue) (e : Entity) :
  result (createServiceEntity this service) = Ok (Some e) ->
  apiVersion e = "backstage.io/v1alpha1"
  /\ (field (field service "attributes") "kind" = JStr "system" -> kind e = "System")
  /\ (field (field service "attributes") "kind" <> JStr "system" -> kind e = "Component").
Proof.
  intros H.
  destruct (createServiceEntity_Some this service e H)
    as (rawName & owner & tags & _ & _ & _ & _ & _ & Hcore).
  destruct Hcore as (Hv & Hk & _). cbn [apiVersion kind] in Hv, Hk.
  split; [exact Hv |]. rewrite Hk. split.
  - intros ->. reflexivity.
  - intros Hne. destruct (field (field service "attributes") "kind") as [| | | | s | |];
      try reflexivity.
    cbn [strictEqString]. destruct (String.eqb_spec s "system"); [congruence | reflexivity].
Qed.

Lemma X8_kind_mapping_witness :
  exists e, result (createServiceEntity sampleProvider richRecord) = Ok (Some e)
            /\ kind e = "System".
Proof.
  eexists. split; [reflexivity |].
  refine (proj1 (proj2 (X8_kind_mapping sampleProvider richRecord _ _)) _);
    reflexivity.
Defined.

(** X9: the tags of a produced entity are "datadog", then the raw tags in
    their order (the elements of the array; none when [tags] is absent),
    then "tier-{tier}" when a tier is present; a [tags] value that cannot be
    iterated leaves the record without entity. *)
Theorem X9_tags_order (this : DatadogServiceEntityProvider)
    (service : JSValue) (e : Entity) :
  result (createServiceEntity this service) = Ok (Some e) ->
  exists rawTags,
    iterate (orElse (field (field service "attributes") "tags") (JArr [])) = Ok rawTags
    /\ meta_tags (metadata e) =
         JStr "datadog" :: rawTags
           ++ (if truthy (field (field service "attributes") "tier")
               then [JStr ("tier-" +:+ toString (field (field service "attributes") "tier"))]
               else []).
Proof.
  intros H.
  destruct (createServiceEntity_Some this service e H)
    as (rawName & owner & tags & Ht & _ & _ & _ & Htags & Hcore).
  destruct Hcore as (_ & _ & _ & _ & _ & _ & _ & Hmt & _). cbn [meta_tags metadata] in Hmt.
  cbn zeta in Ht, Htags. unfold buildTags in Htags.
  rewrite (getProp_truthy_field _ "tags" Ht) in Htags. cbn [mbind Result_bind] in Htags.
  destruct (iterate (orElse (field (field service "attributes") "tags") (JArr [])))
    as [rawTags |]; cbn [mbind Result_bind] in Htags; [| discriminate].
  rewrite (getProp_truthy_field _ "tier" Ht) in Htags. cbn [mbind Result_bind] in Htags.
  injection Htags as <-. exists rawTags. split; [reflexivity | exact Hmt].
Qed.

Lemma X9_tags_order_witness :
  exists e, result (createServiceEntity sampleProvider richRecord) = Ok (Some e)
            /\ meta_tags (metadata e)
               = [JStr "datadog"; JStr "lang:go"; JStr "env:prod"; JStr "tier-1"].
Proof.
  eexists. split; [reflexivity |].
  match goal with
  | |- context [metadata ?e] =>
      destruct (X9_tags_order sampleProvider richRecord e) as (rawTags & Hraw & Htags);
        [reflexivity |]
  end.
  injection Hraw as <-. exact Htags.
Defined.

Lemma findM_field (key value : string) (elems : list JSValue) (v : JSValue) :
  findM (fun x => t ← getProp x key; Ok (strictEqString t value)) elems = Ok v ->
  List.find (fun x => strictEqString (field x key) value) elems
    = (if truthy v then Some v else None)
  /\ (v = JUndefined \/ exists props, v = JObj props).
Proof.
  induction elems as [| x rest IH]; cbn [findM List.find].
  - intros [= <-]. auto.
  - unfold field at 1. destruct (getProp x key) as [t |] eqn:Ht; cbn [mbind Result_bind];
      [| discriminate].
    destruct (strictEqString t value) eqn:Heq; [| exact IH].
    intros [= <-].
    destruct x; simpl in Ht; try discriminate;
      try (injection Ht as <-; simpl in Heq; discriminate Heq);
      try (injection Ht as <-; destruct (String.eqb key "length"); discriminate Heq).
    split; [reflexivity | eauto].
Qed.

Lemma selectPrimaryRepo_spec (attributes primaryRepo : JSValue) :
  selectPrimaryRepo attributes = Ok primaryRepo -> primaryRepo = primaryRepoOf attributes.
Proof.
  unfold selectPrimaryRepo, primaryRepoOf.
  destruct (getProp attributes "repos") as [r |] eqn:Hg; cbn [mbind Result_bind];
    [| intros Hx; discriminate Hx].
  assert (Hf : field attributes "repos" = r) by (unfold field; rewrite Hg; reflexivity).
  rewrite Hf. cbn zeta. unfold orElse.
  destruct (truthy r) eqn:Hr.
  - destruct r as [| | | | | elems |]; cbn [callFind mbind Result_bind];
      try (intros Hx; discriminate Hx).
    destruct (findM _ elems) as [github |] eqn:Hfind; cbn [mbind Result_bind];
      [| intros Hx; discriminate Hx].
    destruct (findM_field _ _ _ _ Hfind) as [Hfound _]. cbn [elements]. rewrite Hfound.
    intros [= <-]. destruct (truthy github); reflexivity.
  - cbn [callFind findM mbind Result_bind]. intros [= <-].
    destruct r; try discriminate Hr; reflexivity.
Qed.

Lemma addRepository_spec (primaryRepo : JSValue) (e base : Entity) :
  addRepository primaryRepo e = Ok base ->
  meta_links (metadata base) =
    meta_links (metadata e)
      ++ (if truthy (field primaryRepo "url")
          then [mkEntityLink (field primaryRepo "url") "Repository" "code"] else [])
  /\ meta_annotations (metadata base) =
       (if truthy (field primaryRepo "url")
        then <["backstage.io/source-location" :=
                 JStr ("url:" +:+ toString (field primaryRepo "url") +:+ "/")]>
               (meta_annotations (metadata e))
        else meta_annotations (metadata e)).
Proof.
  unfold addRepository.
  destruct (truthy primaryRepo) eqn:Hp; cbn [negb].
  - rewrite (getProp_truthy_field _ "url" Hp). cbn [mbind Result_bind].
    destruct (truthy (field primaryRepo "url")); cbn [negb]; intros [= <-];
      cbn [meta_links meta_annotations metadata]; [auto |].
    now rewrite app_nil_r.
  - intros [= <-].
    assert (Hu : truthy (field primaryRepo "url") = false).
    { destruct (truthy (field primaryRepo "url")) eqn:Hu; [| reflexivity].
      apply field_truthy_parent in Hu. congruence. }
    rewrite Hu. now rewrite app_nil_r.
Qed.

Lemma addAnnotation_spec (key : string) (v : JSValue) (e : Entity) :
  meta_links (metadata (addAnnotation key v e)) = meta_links (metadata e)
  /\ meta_annotations (metadata (addAnnotation key v e)) =
       (if truthy v then <[key := v]> (meta_annotations (metadata e))
        else meta_annotations (metadata e)).
Proof. unfold addAnnotation. destruct (truthy v); split; reflexivity. Qed.

(** The links and the annotations of a produced entity, spelled out. *)
Lemma createServiceEntity_links_annotations (this : DatadogServiceEntityProvider)
    (service : JSValue) (e : Entity) :
  result (createServiceEntity this service) = Ok (Some e) ->
  exists rawName,
    let attributes := field service "attributes" in
    let url := field (primaryRepoOf attributes) "url" in
    let literal : gmap string JSValue :=
      list_to_map
        [ ("datadoghq.com/service-name", JStr rawName);
          ("backstage.io/managed-by-location", JStr ("datadog:" +:+ site (config this)));
          ("backstage.io/managed-by-origin-location",
            JStr ("datadog:" +:+ site (config this))) ] in
    let withRepo : gmap string JSValue :=
      if truthy url
      then <["backstage.io/source-location" := JStr ("url:" +:+ toString url +:+ "/")]> literal
      else literal in
    let withTeam : gmap string JSValue :=
      if truthy (field attributes "team")
      then <["datadoghq.com/team" := field attributes "team"]> withRepo
      else withRepo in
    field attributes "name" = JStr rawName
    /\ meta_links (metadata e) =
         (if truthy url then [mkEntityLink url "Repository" "code"] else [])
    /\ meta_annotations (metadata e) =
         (if truthy (field attributes "application")
          then <["datadoghq.com/application" := field attributes "application"]> withTeam
          else withTeam).
Proof.
  intros H.
  destruct (createServiceEntity_inv this service e H)
    as (rawName & owner & primaryRepo & rels & tags & base
        & _ & Hname & _ & Hrepo & _ & _ & Hbase & ->).
  apply selectPrimaryRepo_spec in Hrepo. subst primaryRepo.
  destruct (addRepository_spec _ _ _ Hbase) as [Hlinks Hann].
  exists rawName. cbn zeta. split; [exact Hname |].
  destruct (addAnnotation_spec "datadoghq.com/application"
              (field (field service "attributes") "application")
              (addAnnotation "datadoghq.com/team"
                 (field (field service "attributes") "team") base)) as [Hl2 Ha2].
  destruct (addAnnotation_spec "datadoghq.com/team"
              (field (field service "attributes") "team") base) as [Hl1 Ha1].
  rewrite Hl2, Hl1, Hlinks, Ha2, Ha1, Hann. split; reflexivity.
Qed.

(** X10: the repository link of a produced entity comes from the first
    repository whose provider is "github", else from the first repository.
    When that repository has a URL the entity gets exactly one link
    ([url], "Repository", "code") and the annotation
    backstage.io/source-location = "url:{url}/"; otherwise it has no link
    and no such annotation. *)
Theorem X10_repository_link (this : DatadogServiceEntityProvider)
    (service : JSValue) (e : Entity) :
  result (createServiceEntity this service) = Ok (Some e) ->
  let url := field (primaryRepoOf (field service "attributes")) "url" in
  (truthy url = true ->
     meta_links (metadata e) = [mkEntityLink url "Repository" "code"]
     /\ meta_annotations (metadata e) !! "backstage.io/source-location"
        = Some (JStr ("url:" +:+ toString url +:+ "/")))
  /\ (truthy url = false ->
     meta_links (metadata e) = []
     /\ meta_annotations (metadata e) !! "backstage.io/source-location" = None).
Proof.
  intros H url.
  destruct (createServiceEntity_links_annotations this service e H)
    as (rawName & _ & Hlinks & Hann).
  cbn zeta in Hlinks, Hann. fold url in Hlinks, Hann. rewrite Hlinks, Hann.
  split; intros Hu; rewrite Hu; (split; [reflexivity |]);
    destruct (truthy (field (field service "attributes") "application"));
    destruct (truthy (field (field service "attributes") "team"));
    repeat (rewrite lookup_insert_ne by discriminate);
    try apply lookup_insert_eq; reflexivity.
Qed.

Lemma X10_repository_link_witness :
  exists e, result (createServiceEntity sampleProvider richRecord) = Ok (Some e)
            /\ meta_links (metadata e)
               = [mkEntityLink (JStr "https://github.com/acme/checkout") "Repository" "code"].
Proof.
  eexists. split; [reflexivity |].
  refine (proj1 (proj1 (X10_repository_link sampleProvider richRecord _ _) _));
    reflexivity.
Defined.

(** X11: the team and application annotations are present exactly when the
    raw record has the value, and carry it unchanged; and an entity never
    has an annotation outside the six keys the provider writes. *)
Theorem X11_optional_annotations (this : DatadogServiceEntityProvider)
    (service : JSValue) (e : Entity) :
  result (createServiceEntity this service) = Ok (Some e) ->
  let attributes := field service "attributes" in
  meta_annotations (metadata e) !! "datadoghq.com/team"
    = (if truthy (field attributes "team") then Some (field attributes "team") else None)
  /\ meta_annotations (metadata e) !! "datadoghq.com/application"
     = (if truthy (field attributes "application")
        then Some (field attributes "application") else None)
  /\ forall key, is_Some (meta_annotations (metadata e) !! key) -> In key annotationKeys.
Proof.
  intros H attributes.
  destruct (createServiceEntity_links_annotations this service e H)
    as (rawName & _ & _ & Hann).
  cbn zeta in Hann. fold attributes in Hann. rewrite Hann.
  split; [| split].
  - destruct (truthy (field attributes "application"));
      destruct (truthy (field attributes "team"));
      destruct (truthy (field (primaryRepoOf attributes) "url"));
      repeat (rewrite lookup_insert_ne by discriminate);
      try apply lookup_insert_eq; reflexivity.
  - destruct (truthy (field attributes "application"));
      destruct (truthy (field attributes "team"));
      destruct (truthy (field (primaryRepoOf attributes) "url"));
      repeat (rewrite lookup_insert_ne by discriminate);
      try apply lookup_insert_eq; reflexivity.
  - intros key [v Hv]. unfold annotationKeys.
    cbn [list_to_map foldr uncurry fst snd] in Hv.
    destruct (truthy (field attributes "application"));
      destruct (truthy (field attributes "team"));
      destruct (truthy (field (primaryRepoOf attributes) "url"));
      repeat (apply lookup_insert_Some in Hv as [[<- _] | [_ Hv]];
              [simpl; tauto |]);
      rewrite lookup_empty in Hv; discriminate.
Qed.

Lemma X11_optional_annotations_witness :
  exists e, result (createServiceEntity sampleProvider richRecord) = Ok (Some e)
            /\ meta_annotations (metadata e) !! "datadoghq.com/team"
               = Some (JStr "payments-core")
            /\ meta_annotations (metadata e) !! "datadoghq.com/application" = None.
Proof.
  eexists. split; [reflexivity |].
  match goal with
  | |- context [metadata ?e] =>
      destruct (X11_optional_annotations sampleProvider richRecord e) as (Ht & Ha & _);
        [reflexivity |]
  end.
  exact (conj Ht Ha).
Defined.

(** ** Records that always map *)

Lemma getPropOpt_total (v : JSValue) (k : string) : exists x, getPropOpt v k = Ok x.
Proof. destruct v; simpl; eauto. Qed.

Lemma findM_objects (key value : string) (elems : list JSValue) :
  forallb isObject elems = true ->
  exists v, findM (fun x => t ← getProp x key; Ok (strictEqString t value)) elems = Ok v.
Proof.
  induction elems as [| x rest IH]; cbn [findM forallb]; [eauto |].
  intros [Hx Hrest]%andb_prop. destruct x; try discriminate Hx.
  cbn [getProp mbind Result_bind]. destruct (strictEqString _ value); eauto.
Qed.

Lemma callFindOpt_objects (key value : string) (v : JSValue) :
  absentOrObjects v = true ->
  exists x, callFindOpt v (fun x => t ← getProp x key; Ok (strictEqString t value)) = Ok x.
Proof.
  destruct v; cbn [absentOrObjects callFindOpt callFind]; try discriminate; eauto.
  apply findM_objects.
Qed.

Lemma resolveOwner_total (attributes : JSValue) :
  truthy attributes = true ->
  absentOrObjects (field attributes "contacts") = true ->
  exists owner, resolveOwner attributes = Ok owner.
Proof.
  intros Ht Hc. unfold resolveOwner.
  rewrite (getProp_truthy_field _ "owner" Ht). cbn [mbind Result_bind].
  destruct (truthy (field attributes "owner")); [eauto |].
  rewrite (getProp_truthy_field _ "contacts" Ht). cbn [mbind Result_bind].
  destruct (callFindOpt_objects "type" "squad" _ Hc) as [squad ->]. cbn [mbind Result_bind].
  destruct (getPropOpt_total squad "contact") as [sc ->]. cbn [mbind Result_bind].
  destruct (truthy sc); [eauto |].
  destruct (callFindOpt_objects "type" "team" _ Hc) as [team ->]. cbn [mbind Result_bind].
  destruct (getPropOpt_total team "contact") as [tc ->]. cbn [mbind Result_bind].
  destruct (truthy tc); eauto.
Qed.

Lemma selectPrimaryRepo_total (attributes : JSValue) :
  truthy attributes = true ->
  absentOrObjects (field attributes "repos") = true ->
  exists primaryRepo, selectPrimaryRepo attributes = Ok primaryRepo.
Proof.
  intros Ht Hr. unfold selectPrimaryRepo.
  rewrite (getProp_truthy_field _ "repos" Ht). cbn [mbind Result_bind]. cbn zeta.
  destruct (field attributes "repos") as [| | | | | elems |];
    try discriminate Hr; cbn [orElse truthy callFind findM mbind Result_bind]; eauto.
  destruct (findM_objects "provider" "github" elems Hr) as [github ->].
  cbn [mbind Result_bind]. eauto.
Qed.

Lemma buildTags_total (attributes : JSValue) :
  truthy attributes = true ->
  absentOrIterable (field attributes "tags") = true ->
  exists tags, buildTags attributes = Ok tags.
Proof.
  intros Ht Hi. unfold buildTags.
  rewrite (getProp_truthy_field _ "tags" Ht). cbn [mbind Result_bind].
  rewrite (getProp_truthy_field _ "tier" Ht).
  destruct (field attributes "tags") as [| | | | s | elems |]; try discriminate Hi;
    unfold orElse; cbn [truthy iterate mbind Result_bind]; eauto.
  destruct (negb (String.eqb s "")); cbn [iterate mbind Result_bind]; eauto.
Qed.

Lemma addRepository_total (primaryRepo : JSValue) (e : Entity) :
  exists base, addRepository primaryRepo e = Ok base.
Proof.
  unfold addRepository. destruct (truthy primaryRepo) eqn:Hp; cbn [negb]; [| eauto].
  rewrite (getProp_truthy_field _ "url" Hp). cbn [mbind Result_bind].
  destruct (truthy (field primaryRepo "url")); cbn [negb]; eauto.
Qed.

(** X13: a record of the expected shape whose relationship block can be
    translated always becomes an entity: nothing in the mapping throws and
    the record is not skipped. *)
Theorem X13_well_shaped_record_maps (this : DatadogServiceEntityProvider)
    (service : JSValue) (relationships : list Relation) :
  wellShaped service = true ->
  extractRelationships service = Ok relationships ->
  exists e, result (createServiceEntity this service) = Ok (Some e)
            /\ result (mapRecord this service) = Ok (Some e).
Proof.
  unfold wellShaped. cbn zeta.
  intros [[[Hname Hcontacts]%andb_prop Hrepos]%andb_prop Htags]%andb_prop Hrel.
  destruct (field (field service "attributes") "name") as [| | | | rawName | |] eqn:Hn;
    try discriminate Hname.
  assert (Htn : truthy (field (field service "attributes") "name") = true)
    by (rewrite Hn; exact Hname).
  pose proof (field_truthy_parent _ _ Htn) as Ht.
  pose proof (field_truthy_parent _ _ Ht) as Hs.
  destruct (resolveOwner_total _ Ht Hcontacts) as [owner Ho].
  destruct (selectPrimaryRepo_total _ Ht Hrepos) as [primaryRepo Hp].
  destruct (buildTags_total _ Ht Htags) as [tags Hg].
  destruct (addRepository_total primaryRepo
              (entityLiteral this (field service "attributes") rawName owner tags))
    as [base Hb].
  assert (Hres : result (createServiceEntity this service) =
                 Ok (Some (addAnnotation "datadoghq.com/application"
                             (field (field service "attributes") "application")
                             (addAnnotation "datadoghq.com/team"
                                (field (field service "attributes") "team") base)))).
  { rewrite createServiceEntity_result. unfold mappingResult.
    rewrite (getProp_truthy_field _ "attributes" Hs). cbn [mbind Result_bind].
    rewrite Ht, Htn, Hn. cbn [negb orb].
    rewrite Ho. cbn [mbind Result_bind]. rewrite Hp. cbn [mbind Result_bind].
    rewrite Hrel. cbn [mbind Result_bind]. rewrite Hg. cbn [mbind Result_bind].
    rewrite Hb. reflexivity. }
  eexists. split; [exact Hres |].
  unfold mapRecord. rewrite result_tryCatch, Hres. reflexivity.
Qed.

Lemma X13_well_shaped_record_maps_witness :
  exists e, result (mapRecord sampleProvider richRecord) = Ok (Some e).
Proof.
  destruct (X13_well_shaped_record_maps sampleProvider richRecord [])
    as (e & _ & He); [reflexivity | reflexivity |].
  exists e. exact He.
Defined.

(** ** The loop over the records of a page *)

(** X14: for a record that is not [null], the loop body passes on what the
    mapping returned (an entity, or nothing for a skipped record) with its
    log lines; when the mapping throws, it appends one warning naming the
    record (its raw name, or "unknown") and returns nothing. *)
Theorem X14_mapRecord_recovers (this : DatadogServiceEntityProvider)
    (catalogEntity : JSValue) :
  catalogEntity <> JNull -> catalogEntity <> JUndefined ->
  (forall o, result (createServiceEntity this catalogEntity) = Ok o ->
     mapRecord this catalogEntity = createServiceEntity this catalogEntity)
  /\ (forall error, result (createServiceEntity this catalogEntity) = Throw error ->
     mapRecord this catalogEntity =
       mkIO (trace (createServiceEntity this catalogEntity)
               ++ [EvLog Warn
                     ("Failed to create entity for service "
                        +:+ toString (orElse (field (field catalogEntity "attributes") "name")
                                        (JStr "unknown")))])
            (Ok None)).
Proof.
  intros Hnull Hundef. split.
  - intros o Ho. unfold mapRecord, tryCatch. rewrite Ho. reflexivity.
  - intros error He. unfold mapRecord, tryCatch. rewrite He.
    assert (Ha : getProp catalogEntity "attributes" = Ok (field catalogEntity "attributes"))
      by (destruct catalogEntity; try reflexivity; congruence).
    assert (Hn : getPropOpt (field catalogEntity "attributes") "name"
                 = Ok (field (field catalogEntity "attributes") "name"))
      by (destruct (field catalogEntity "attributes"); reflexivity).
    apply IO_ext; cbn [trace result].
    + rewrite trace_bind. cbn [lift result trace]. rewrite Ha. cbn beta iota.
      rewrite trace_bind. cbn [lift result trace]. rewrite Hn. reflexivity.
    + rewrite result_bind. cbn [lift result]. rewrite Ha. cbn beta iota.
      rewrite result_bind. cbn [lift result]. rewrite Hn. reflexivity.
Qed.

Lemma X14_mapRecord_recovers_witness :
  mapRecord sampleProvider (JObj [("attributes", JObj [("name", JNum 7)])]) =
    mkIO [EvLog Warn "Failed to create entity for service 7"] (Ok None).
Proof.
  refine (proj2 (X14_mapRecord_recovers sampleProvider
                   (JObj [("attributes", JObj [("name", JNum 7)])]) _ _)
            (TypeError "toLowerCase is not a function") _);
    [discriminate | discriminate | reflexivity].
Defined.

Lemma mapRecord_Some (this : DatadogServiceEntityProvider) (catalogEntity : JSValue)
    (e : Entity) :
  result (mapRecord this catalogEntity) = Ok (Some e) ->
  result (createServiceEntity this catalogEntity) = Ok (Some e).
Proof.
  unfold mapRecord. rewrite result_tryCatch.
  destruct (result (createServiceEntity this catalogEntity)) as [o | err]; [auto |].
  rewrite !result_bind. cbn [lift logger emit result].
  destruct (getProp catalogEntity "attributes"); [| discriminate].
  destruct (getPropOpt _ "name"); discriminate.
Qed.

Lemma mapRecords_result (this : DatadogServiceEntityProvider)
    (records : list JSValue) (acc entities : list Entity) :
  result (mapRecords this records acc) = Ok entities ->
  exists new,
    entities = acc ++ new
    /\ length new <= length records
    /\ Forall (fun e => exists r, r ∈ records
                                  /\ result (createServiceEntity this r) = Ok (Some e)) new.
Proof.
  revert acc entities. induction records as [| r rest IH]; intros acc entities;
    cbn [mapRecords].
  - intros [= <-]. exists []. rewrite app_nil_r. repeat split; auto.
  - rewrite result_bind.
    destruct (result (mapRecord this r)) as [o |] eqn:Hr; [| discriminate].
    intros H. destruct (IH _ _ H) as (new & -> & Hlen & Hall).
    assert (Hall' : Forall (fun e => exists r', r' ∈ r :: rest
                              /\ result (createServiceEntity this r') = Ok (Some e)) new).
    { eapply Forall_impl; [exact Hall |]. intros e (r' & Hin & He).
      exists r'. split; [now right | exact He]. }
    destruct o as [e |].
    + exists (e :: new). rewrite <- app_assoc. split; [reflexivity |].
      split; [simpl; lia |]. constructor; [| exact Hall'].
      exists r. split; [now left | apply mapRecord_Some, Hr].
    + exists new. split; [reflexivity |]. split; [simpl; lia | exact Hall'].
Qed.

(** X15: mapping the records of a page never touches the entities gathered
    before: the result is the earlier entities followed by the new ones, at
    most one per record, each of them the entity [createServiceEntity]
    makes of a record of the page. *)
Theorem X15_mapRecords_appends (this : DatadogServiceEntityProvider)
    (records : list JSValue) (acc entities : list Entity) :
  result (mapRecords this records acc) = Ok entities ->
  exists new,
    entities = acc ++ new
    /\ length new <= length records
    /\ Forall (fun e => exists r, r ∈ records
                                  /\ result (createServiceEntity this r) = Ok (Some e)) new.
Proof. apply mapRecords_result. Qed.

Lemma X15_mapRecords_appends_witness :
  exists new, sampleEntities = [] ++ new /\ length new <= 1.
Proof.
  destruct (X15_mapRecords_appends sampleProvider [sampleRecord] [] sampleEntities)
    as (new & Hnew & Hlen & _); [reflexivity |].
  exists new. exact (conj Hnew Hlen).
Defined.

(** X12: a record (not [null]) without attribute block or without name is
    skipped quietly: one debug line, no warning, nothing thrown, no entity;
    its relationship block is not even read; the loop goes on with the next
    record and the entities gathered so far. *)
Theorem X12_nameless_record_is_skipped (this : DatadogServiceEntityProvider)
    (catalogEntity : JSValue) :
  catalogEntity <> JNull -> catalogEntity <> JUndefined ->
  truthy (field (field catalogEntity "attributes") "name") = false ->
  mapRecord this catalogEntity =
    mkIO [EvLog Debug "Skipping service without name or attributes"] (Ok None)
  /\ forall rest acc,
       mapRecords this (catalogEntity :: rest) acc =
         mkIO (EvLog Debug "Skipping service without name or attributes"
                 :: trace (mapRecords this rest acc))
              (result (mapRecords this rest acc)).
Proof.
  intros Hnull Hundef Hname.
  assert (Hmap : mapRecord this catalogEntity =
                 mkIO [EvLog Debug "Skipping service without name or attributes"] (Ok None)).
  { unfold mapRecord, tryCatch.
    rewrite (createServiceEntity_skips this catalogEntity Hnull Hundef Hname). reflexivity. }
  split; [exact Hmap |].
  intros rest acc. cbn [mapRecords]. rewrite Hmap. reflexivity.
Qed.

Lemma X12_nameless_record_is_skipped_witness :
  mapRecord sampleProvider
    (JObj [("attributes", JObj [("owner", JStr "payments")]);
           ("relationships", JObj [("relatedEntities", JObj [])])]) =
    mkIO [EvLog Debug "Skipping service without name or attributes"] (Ok None).
Proof.
  refine (proj1 (X12_nameless_record_is_skipped sampleProvider _ _ _ _));
    [discriminate | discriminate | reflexivity].
Defined.

(** ** What every discovered entity satisfies *)

Lemma ownerSpec_truthy (attributes : JSValue) : truthy (ownerSpec attributes) = true.
Proof.
  unfold ownerSpec.
  destruct (truthy (field attributes "owner")) eqn:H1; [exact H1 |].
  destruct (truthy (firstContactOfType "squad" attributes)) eqn:H2; [exact H2 |].
  destruct (truthy (firstContactOfType "team" attributes)) eqn:H3; [exact H3 |].
  reflexivity.
Qed.

Lemma orElse_truthy (a b : JSValue) : truthy b = true -> truthy (orElse a b) = true.
Proof. unfold orElse. destruct (truthy a) eqn:Ha; auto. Qed.

Lemma createServiceEntity_produced (this : DatadogServiceEntityProvider)
    (service : JSValue) (e : Entity) :
  result (createServiceEntity this service) = Ok (Some e) -> producedEntity e.
Proof.
  intros H.
  destruct (createServiceEntity_Some this service e H)
    as (rawName & owner & tags & Ht & Hname & Hne & Ho & Htags & Hcore).
  destruct Hcore as (Hv & Hk & Hs & Hr & Hn & _ & Hd & Hg & _).
  cbn [apiVersion kind spec relations metadata meta_name meta_description meta_tags]
    in Hv, Hk, Hs, Hr, Hn, Hd, Hg.
  unfold producedEntity. rewrite Hv, Hk, Hs, Hr, Hn, Hd, Hg.
  cbn [spec_type spec_lifecycle spec_owner].
  split; [reflexivity |]. split; [destruct (strictEqString _ _); auto |].
  split.
  { intros Hempty. apply Hne.
    assert (Hlen : String.length (normalizeName rawName) = String.length rawName).
    { unfold normalizeName, Str.replace_non_name_chars, Str.toLowerCase.
      now rewrite !map_chars_length. }
    rewrite Hempty in Hlen. destruct rawName; [reflexivity | discriminate]. }
  split; [apply normalizeName_all_name_chars |].
  split; [apply orElse_truthy; reflexivity |].
  split.
  { cbn zeta in Ht, Htags. unfold buildTags in Htags.
    rewrite (getProp_truthy_field _ "tags" Ht) in Htags. cbn [mbind Result_bind] in Htags.
    destruct (iterate _) as [rawTags |]; cbn [mbind Result_bind] in Htags; [| discriminate].
    rewrite (getProp_truthy_field _ "tier" Ht) in Htags. cbn [mbind Result_bind] in Htags.
    injection Htags as <-. eauto. }
  split; [apply orElse_truthy; reflexivity |].
  split; [apply orElse_truthy; reflexivity |].
  split; [| reflexivity].
  apply resolveOwner_spec in Ho. rewrite Ho. apply ownerSpec_truthy.
Qed.

(** The entities a turn of the loop ends with are the ones it started with,
    followed by entities made of records. *)
Lemma loopBody_entities (this : DatadogServiceEntityProvider) (api : Api)
    (n : nat) (offset : N) (acc : list Entity) (step : LoopStep) (entities : list Entity) :
  result (loopBody this api n offset acc) = Ok (step, entities) ->
  exists new, entities = acc ++ new /\ Forall producedEntity new.
Proof.
  unfold loopBody. cbn zeta. rewrite result_bind. cbn [emit result].
  destruct (api n (pageUrl this offset)) as [e | response]; [discriminate |].
  destruct (negb (resp_ok response)).
  - rewrite result_bind. cbn [lift result].
    destruct (resp_text response); [| discriminate].
    rewrite result_bind. cbn [logger emit result]. discriminate.
  - rewrite result_bind. cbn [lift result].
    destruct (resp_json response) as [data |]; [| discriminate].
    rewrite result_bind. cbn [lift result].
    destruct (if truthy data then getProp data "data" else Ok JUndefined)
      as [catalogEntities |]; [| discriminate].
    destruct (negb (truthy data) || negb (truthy catalogEntities)).
    + rewrite result_bind. cbn [logger emit result mret IO_ret].
      intros [= _ <-]. exists []. now rewrite app_nil_r.
    + rewrite result_bind. cbn [lift result].
      destruct (getProp catalogEntities "length"); [| discriminate].
      rewrite result_bind. cbn [logger emit result].
      rewrite result_bind. cbn [lift result].
      destruct (iterate catalogEntities) as [records |]; [| discriminate].
      rewrite result_bind.
      destruct (result (mapRecords this records acc)) as [es |] eqn:Hmap; [| discriminate].
      rewrite result_bind. cbn [lift result].
      destruct (nextOffset data) as [[o |] |]; try discriminate;
        cbn [result mret IO_ret]; intros [= _ <-];
        destruct (mapRecords_result this records acc es Hmap) as (new & -> & _ & Hall);
        exists new; (split; [reflexivity |]);
        (eapply Forall_impl; [exact Hall |]);
        intros e (r & _ & He); apply (createServiceEntity_produced this r e He).
Qed.

Lemma whileHasNext_entities (this : DatadogServiceEntityProvider) (api : Api)
    (fuel n : nat) (offset : N) (acc entities : list Entity) (loop : IO (list Entity)) :
  whileHasNext this api fuel n offset acc = Some loop ->
  result loop = Ok entities ->
  exists new, entities = acc ++ new /\ Forall producedEntity new.
Proof.
  revert n offset acc loop.
  induction fuel as [| fuel IH]; intros n offset acc loop; [discriminate |].
  rewrite whileHasNext_S.
  destruct (result (loopBody this api n offset acc)) as [[[| offset'] es] | e] eqn:Hturn.
  - intros [= <-] [= <-]. apply (loopBody_entities _ _ _ _ _ _ _ Hturn).
  - destruct (whileHasNext this api fuel (S n) offset' es) as [rest |] eqn:Hrest;
      [| discriminate].
    intros [= <-] Hres. cbn [result] in Hres.
    destruct (IH _ _ _ _ Hrest Hres) as (new2 & -> & Hall2).
    destruct (loopBody_entities _ _ _ _ _ _ _ Hturn) as (new1 & -> & Hall1).
    exists (new1 ++ new2). rewrite app_assoc. split; [reflexivity |].
    apply Forall_app; auto.
  - intros [= <-]. discriminate.
Qed.

(** X16: every entity a successful discovery returns was made by
    [createServiceEntity]: fixed API version, kind System or Component, a
    non-empty name over [a-z0-9-], a description, a type, a lifecycle and an
    owner that are never empty, tags beginning with "datadog", and no
    relations.  Within the loop, the entities of the earlier pages stay in
    front, in their order. *)
Theorem X16_discovered_entities (this : DatadogServiceEntityProvider) (api : Api)
    (fuel : nat) :
  (forall discovery entities,
     discoverServices this api fuel = Some discovery ->
     result discovery = Ok entities ->
     Forall producedEntity entities)
  /\ (forall n offset acc loop entities,
     whileHasNext this api fuel n offset acc = Some loop ->
     result loop = Ok entities ->
     exists new, entities = acc ++ new /\ Forall producedEntity new).
Proof.
  split.
  - intros discovery entities. unfold discoverServices.
    destruct (whileHasNext this api fuel 0 0%N []) as [loop |] eqn:Hloop; [| discriminate].
    intros [= <-]. rewrite result_tryCatch.
    destruct (result loop) as [es |] eqn:Hres.
    + intros [= <-].
      destruct (whileHasNext_entities _ _ _ _ _ _ _ _ Hloop Hres) as (new & -> & Hall).
      exact Hall.
    + rewrite result_bind. cbn [logger emit throw result]. discriminate.
  - intros n offset acc loop entities. apply whileHasNext_entities.
Qed.

Lemma X16_discovered_entities_witness : Forall producedEntity sampleEntities.
Proof.
  apply (proj1 (X16_discovered_entities (connect sampleProvider acceptAll) twoPageApi 3)
           sampleDiscovery sampleEntities); vm_compute; reflexivity.
Defined.

(** ** More on pagination *)




Lemma requests_app (t1 t2 : list Event) : requests (t1 ++ t2) = requests t1 ++ requests t2.
Proof. unfold requests. apply omap_app. Qed.

Lemma local_no_requests (t : list Event) : Forall isLocal t -> requests t = [].
Proof.
  induction 1 as [| ev t Hev _ IH]; [reflexivity |].
  destruct ev; simpl in Hev; try contradiction; exact IH.
Qed.

Lemma whileHasNext_requests (this : DatadogServiceEntityProvider) (api : Api)
    (fuel n : nat) (offset : N) (acc : list Entity) (loop : IO (list Entity)) :
  whileHasNext this api fuel n offset acc = Some loop ->
  exists offsets,
    requests (trace loop)
      = List.map (fun o => (pageUrl this o, headers this)) (offset :: offsets)
    /\ S (length offsets) <= fuel.
Proof.
  revert n offset acc loop.
  induction fuel as [| fuel IH]; intros n offset acc loop; [discriminate |].
  rewrite whileHasNext_S.
  destruct (loopBody_trace this api n offset acc) as (t & Ht & Hlocal).
  assert (Hreq : requests (trace (loopBody this api n offset acc))
                 = [(pageUrl this offset, headers this)]).
  { rewrite Ht. cbn [requests omap list_omap]. fold (requests t).
    now rewrite (local_no_requests t Hlocal). }
  destruct (result (loopBody this api n offset acc)) as [[[| offset'] es] | e].
  - intros [= <-]. exists []. split; [exact Hreq | simpl; lia].
  - destruct (whileHasNext this api fuel (S n) offset' es) as [rest |] eqn:Hrest;
      [| discriminate].
    intros [= <-]. destruct (IH _ _ _ _ Hrest) as (offsets & Hrest_req & Hlen).
    exists (offset' :: offsets).
    change (requests (trace (loopBody this api n offset acc) ++ trace rest)
              = List.map (fun o => (pageUrl this o, headers this))
                  (offset :: offset' :: offsets)
            /\ S (length (offset' :: offsets)) <= S fuel).
    rewrite requests_app, Hreq, Hrest_req. split; [reflexivity | simpl; lia].
  - intros [= <-]. exists []. split; [exact Hreq | simpl; lia].
Qed.



(** ** Offsets written and read back *)











(** ** How long the loop runs *)

Lemma whileHasNext_fuel_le (this : DatadogServiceEntityProvider) (api : Api)
    (fuel fuel' n : nat) (offset : N) (acc : list Entity) (loop : IO (list Entity)) :
  whileHasNext this api fuel n offset acc = Some loop -> fuel <= fuel' ->
  whileHasNext this api fuel' n offset acc = Some loop.
Proof.
  intros H Hle. induction Hle as [| fuel' _ IH]; [exact H |].
  apply whileHasNext_more_fuel, IH.
Qed.

(** X20: when the answer to the request number [k] carries no next offset
    (or fails), the loop ends with that turn at the latest: it makes at most
    [k + 1] requests, and its outcome is the same however many further
    turns it would be allowed. *)
Theorem X20_pagination_ends (this : DatadogServiceEntityProvider) (api : Api) (k : nat) :
  (forall offset acc o e, result (loopBody this api k offset acc) <> Ok (Again o, e)) ->
  exists loop,
    (forall fuel, k < fuel -> whileHasNext this api fuel 0 0%N [] = Some loop)
    /\ 1 <= length (requests (trace loop)) <= S k
    /\ exists discovery,
         (forall fuel, k < fuel -> discoverServices this api fuel = Some discovery)
         /\ result discovery = result loop.
Proof.
  intros Hstop.
  destruct (whileHasNext_terminates this api (S k) k 0 0%N [] (Nat.lt_succ_diag_r k) Hstop)
    as [loop Hloop].
  assert (Hall : forall fuel, k < fuel -> whileHasNext this api fuel 0 0%N [] = Some loop)
    by (intros fuel Hk; apply (whileHasNext_fuel_le _ _ (S k)); [exact Hloop | lia]).
  exists loop. split; [exact Hall |]. split.
  - destruct (whileHasNext_requests _ _ _ _ _ _ _ Hloop) as (offsets & Hreq & Hlen).
    rewrite Hreq, length_map. simpl. lia.
  - eexists. split.
    + intros fuel Hk. unfold discoverServices. rewrite (Hall fuel Hk). reflexivity.
    + rewrite result_tryCatch. destruct (result loop); [reflexivity |].
      rewrite result_bind. reflexivity.
Qed.

Lemma X20_pagination_ends_witness :
  exists loop,
    (forall fuel, 1 < fuel ->
       whileHasNext (connect sampleProvider acceptAll) twoPageApi fuel 0 0%N [] = Some loop)
    /\ 1 <= length (requests (trace loop)) <= 2.
Proof.
  destruct (X20_pagination_ends (connect sampleProvider acceptAll) twoPageApi 1)
    as (loop & Hall & Hlen & _).
  - intros offset acc o e.
    rewrite (loopBody_no_data _ twoPageApi 1 offset acc
               (mkResponse true 200 "OK" (Ok "") (Ok (JObj [("meta", JObj [])])))
               (JObj [("meta", JObj [])]) eq_refl eq_refl eq_refl eq_refl).
    discriminate.
  - exists loop. exact (conj Hall Hlen).
Defined.

(** X21: the loop has no bound of its own.  Against an API that answers
    every request with a next link, it never ends: whatever the number of
    turns allowed, the discovery is still running, and so is the run; no
    mutation is ever submitted. *)
Theorem X21_pagination_without_end (this : DatadogServiceEntityProvider) (api : Api) :
  (forall n offset acc, exists o e, result (loopBody this api n offset acc) = Ok (Again o, e)) ->
  forall fuel,
    (forall n offset acc, whileHasNext this api fuel n offset acc = None)
    /\ discoverServices this api fuel = None
    /\ (forall conn, connection this = Some conn -> run this api fuel = None).
Proof.
  intros Hgo fuel.
  assert (Hloop : forall n offset acc, whileHasNext this api fuel n offset acc = None).
  { induction fuel as [| fuel IH]; intros n offset acc; [reflexivity |].
    rewrite whileHasNext_S. destruct (Hgo n offset acc) as (o & e & ->).
    now rewrite IH. }
  split; [exact Hloop |].
  assert (Hd : discoverServices this api fuel = None)
    by (unfold discoverServices; now rewrite Hloop).
  split; [exact Hd |].
  intros conn Hc. unfold run. now rewrite Hc, Hd.
Qed.

Lemma X21_pagination_without_end_witness :
  discoverServices sampleProvider cyclicApi 1000 = None.
Proof.
  refine (proj1 (proj2 (X21_pagination_without_end sampleProvider cyclicApi _ 1000))).
  intros n offset acc.
  assert (Hm : exists e0, result (mapRecord sampleProvider sampleRecord) = Ok (Some e0))
    by (eexists; reflexivity).
  destruct Hm as [e0 He0].
  exists 0%N, (acc ++ [e0]).
  rewrite (loopBody_page sampleProvider cyclicApi n offset acc
             (mkResponse true 200 "OK" (Ok "") (Ok cyclicBody)) cyclicBody
             eq_refl eq_refl eq_refl eq_refl).
  replace (iterate (field cyclicBody "data")) with (Ok [sampleRecord]) by reflexivity.
  replace (nextOffsetSpec cyclicBody) with (Some 0%N) by reflexivity.
  cbn [mapRecords]. rewrite result_bind, He0. reflexivity.
Defined.
